(** * django-unicorn: the message endpoint ([django_unicorn/views.py])

    A shallow embedding of the view module and of the library calls it
    makes, followed by the properties of the message-processing engine.

    Conventions of the embedding.
    - A Python [str] is a [string] holding its UTF-8 bytes.  Every slice
      and split the view performs cuts next to an ASCII character, so
      byte positions and code points agree where it matters.
    - JSON numbers are integers ([Z]); floating-point numbers are left out.
    - Python objects that can be mutated (dicts, lists, class instances)
      live in a store and are referred to by location, so that two names
      for one dict see each other's writes.
    - Exceptions are values: a computation returns the store it reached
      together with either a result or the exception raised. *)

From Stdlib Require Import ZArith List String Ascii Bool Lia DecimalString.
From stdpp Require Import base list strings.
Import ListNotations.

Local Open Scope string_scope.
Local Open Scope list_scope.
Local Open Scope Z_scope.

(** ** Bytes and strings *)

Abbreviation bytes := (list Z).

(** The double quote character. *)
Definition dquote : ascii := "034"%char.

Definition byte_of_ascii (c : ascii) : Z := Z.of_N (N_of_ascii c).
Definition ascii_of_byte (b : Z) : ascii := ascii_of_N (Z.to_N b).

Fixpoint str_encode (s : string) : bytes :=
  match s with
  | EmptyString => []
  | String c r => byte_of_ascii c :: str_encode r
  end.

Fixpoint bytes_decode (b : bytes) : string :=
  match b with
  | [] => EmptyString
  | x :: r => String (ascii_of_byte x) (bytes_decode r)
  end.

Definition hex_digit (n : Z) : ascii :=
  ascii_of_byte (if n <? 10 then 48 + n else 87 + n).

(** Two lower-case hexadecimal digits per byte, as [hexdigest] prints. *)
Fixpoint hex_of_bytes (b : bytes) : string :=
  match b with
  | [] => EmptyString
  | x :: r => String (hex_digit (x / 16)) (String (hex_digit (x mod 16)) (hex_of_bytes r))
  end.

(** Big-endian bytes of a number, [n] of them. *)
Fixpoint be_bytes (n : nat) (x : Z) : bytes :=
  match n with
  | O => []
  | S k => be_bytes k (x / 256) ++ [x mod 256]
  end.

Definition be_int (b : bytes) : Z := fold_left (fun acc x => acc * 256 + x) b 0.

(** Cut a byte string into chunks of [n] bytes. *)
Fixpoint chunks (fuel n : nat) (b : bytes) : list bytes :=
  match fuel with
  | O => []
  | S f =>
      match b with
      | [] => []
      | _ => take n b :: chunks f n (drop n b)
      end
  end.

Definition mask32 : Z := 4294967295.
Definition add32 (x y : Z) : Z := Z.land (x + y) mask32.
Definition shl32 (x n : Z) : Z := Z.land (Z.shiftl x n) mask32.
Definition rotr32 (n x : Z) : Z := Z.lor (Z.shiftr x n) (shl32 x (32 - n)).
Definition rotl32 (n x : Z) : Z := Z.lor (shl32 x n) (Z.shiftr x (32 - n)).
Definition not32 (x : Z) : Z := Z.lxor x mask32.

(** Merkle-Damgard padding shared by SHA-1 and SHA-256: a 1 bit, zeros up
    to 56 modulo 64 bytes, then the bit length on eight bytes. *)
Definition md_pad (m : bytes) : bytes :=
  let len := Z.of_nat (length m) in
  m ++ [128] ++ repeat 0 (Z.to_nat ((55 - len) mod 64)) ++ be_bytes 8 (8 * len).

Definition words_of_block (b : bytes) : list Z := map be_int (chunks 16 4 b).

Definition md_blocks (m : bytes) : list (list Z) :=
  let p := md_pad m in map words_of_block (chunks (S (length p)) 64 p).

Definition wd (l : list Z) (i : nat) : Z := nth i l 0.

(** ** SHA-256 (FIPS 180-4), the digest [hmac.new(..., digestmod="sha256")] uses *)
Module Sha256.

Definition K : list Z :=
  [ 1116352408; 1899447441; 3049323471; 3921009573; 961987163; 1508970993;
    2453635748; 2870763221; 3624381080; 310598401; 607225278; 1426881987;
    1925078388; 2162078206; 2614888103; 3248222580; 3835390401; 4022224774;
    264347078; 604807628; 770255983; 1249150122; 1555081692; 1996064986;
    2554220882; 2821834349; 2952996808; 3210313671; 3336571891; 3584528711;
    113926993; 338241895; 666307205; 773529912; 1294757372; 1396182291;
    1695183700; 1986661051; 2177026350; 2456956037; 2730485921; 2820302411;
    3259730800; 3345764771; 3516065817; 3600352804; 4094571909; 275423344;
    430227734; 506948616; 659060556; 883997877; 958139571; 1322822218;
    1537002063; 1747873779; 1955562222; 2024104815; 2227730452; 2361852424;
    2428436474; 2756734187; 3204031479; 3329325298 ].

Definition IV : list Z :=
  [ 1779033703; 3144134277; 1013904242; 2773480762;
    1359893119; 2600822924; 528734635; 1541459225 ].

Definition choose (e f g : Z) : Z := Z.lxor (Z.land e f) (Z.land (not32 e) g).
Definition majority (a b c : Z) : Z :=
  Z.lxor (Z.lxor (Z.land a b) (Z.land a c)) (Z.land b c).
Definition big0 (a : Z) : Z := Z.lxor (Z.lxor (rotr32 2 a) (rotr32 13 a)) (rotr32 22 a).
Definition big1 (e : Z) : Z := Z.lxor (Z.lxor (rotr32 6 e) (rotr32 11 e)) (rotr32 25 e).
Definition small0 (x : Z) : Z := Z.lxor (Z.lxor (rotr32 7 x) (rotr32 18 x)) (Z.shiftr x 3).
Definition small1 (x : Z) : Z := Z.lxor (Z.lxor (rotr32 17 x) (rotr32 19 x)) (Z.shiftr x 10).

(** The schedule is kept newest word first: position [i] is word [t-1-i]. *)
Fixpoint schedule (n : nat) (rev_w : list Z) : list Z :=
  match n with
  | O => rev_w
  | S k =>
      let w := add32 (add32 (small1 (wd rev_w 1)) (wd rev_w 6))
                     (add32 (small0 (wd rev_w 14)) (wd rev_w 15)) in
      schedule k (w :: rev_w)
  end.

Definition round (st : list Z) (kw : Z * Z) : list Z :=
  let '(k, w) := kw in
  let a := wd st 0 in let b := wd st 1 in let c := wd st 2 in let d := wd st 3 in
  let e := wd st 4 in let f := wd st 5 in let g := wd st 6 in let h := wd st 7 in
  let t1 := add32 (add32 (add32 h (big1 e)) (add32 (choose e f g) k)) w in
  let t2 := add32 (big0 a) (majority a b c) in
  [add32 t1 t2; a; b; c; add32 d t1; e; f; g].

Definition compress (h : list Z) (block : list Z) : list Z :=
  let w := rev (schedule 48 (rev block)) in
  let st := fold_left round (combine K w) h in
  map (fun p => add32 (fst p) (snd p)) (combine h st).

Definition digest (m : bytes) : bytes :=
  concat (map (be_bytes 4) (fold_left compress (md_blocks m) IV)).

End Sha256.

(** ** SHA-1, the digest behind [uuid.uuid5] *)
Module Sha1.

Definition IV : list Z :=
  [ 1732584193; 4023233417; 2562383102; 271733878; 3285377520 ].

Fixpoint schedule (n : nat) (rev_w : list Z) : list Z :=
  match n with
  | O => rev_w
  | S k =>
      let x := Z.lxor (Z.lxor (wd rev_w 2) (wd rev_w 7))
                      (Z.lxor (wd rev_w 13) (wd rev_w 15)) in
      schedule k (rotl32 1 x :: rev_w)
  end.

Definition f_k (t : nat) (b c d : Z) : Z * Z :=
  if (t <? 20)%nat then (Z.lor (Z.land b c) (Z.land (not32 b) d), 1518500249)
  else if (t <? 40)%nat then (Z.lxor (Z.lxor b c) d, 1859775393)
  else if (t <? 60)%nat then
    (Z.lor (Z.lor (Z.land b c) (Z.land b d)) (Z.land c d), 2400959708)
  else (Z.lxor (Z.lxor b c) d, 3395469782).

Definition round (st : list Z) (tw : nat * Z) : list Z :=
  let '(t, w) := tw in
  let a := wd st 0 in let b := wd st 1 in let c := wd st 2 in
  let d := wd st 3 in let e := wd st 4 in
  let '(f, k) := f_k t b c d in
  [add32 (add32 (add32 (rotl32 5 a) f) (add32 e k)) w; a; rotl32 30 b; c; d].

Definition compress (h : list Z) (block : list Z) : list Z :=
  let w := rev (schedule 64 (rev block)) in
  let st := fold_left round (combine (seq 0 80) w) h in
  map (fun p => add32 (fst p) (snd p)) (combine h st).

Definition digest (m : bytes) : bytes :=
  concat (map (be_bytes 4) (fold_left compress (md_blocks m) IV)).

End Sha1.

(** ** [hmac.new(key, msg, digestmod="sha256").hexdigest()] (RFC 2104) *)
Module Hmac.

Definition block_size : nat := 64.

Definition block_key (key : bytes) : bytes :=
  let k := if (block_size <? length key)%nat then Sha256.digest key else key in
  k ++ repeat 0 (block_size - length k).

Definition digest (key msg : bytes) : bytes :=
  let k := block_key key in
  let inner := Sha256.digest (map (Z.lxor 54) k ++ msg) in
  Sha256.digest (map (Z.lxor 92) k ++ inner).

Definition hexdigest (key msg : bytes) : string := hex_of_bytes (digest key msg).

End Hmac.

(** ** [shortuuid.uuid(name)] (shortuuid 1.x, default alphabet) *)
Module ShortUUID.

Definition alphabet : list ascii :=
  list_ascii_of_string "23456789ABCDEFGHJKLMNPQRSTUVWXYZabcdefghijkmnopqrstuvwxyz".

(** [ceil(log(2**128, 57))] *)
Definition pad_length : nat := 22.

Definition NAMESPACE_DNS : bytes :=
  [107; 167; 184; 16; 157; 173; 17; 209; 128; 180; 0; 192; 79; 212; 48; 200].
Definition NAMESPACE_URL : bytes :=
  [107; 167; 184; 17; 157; 173; 17; 209; 128; 180; 0; 192; 79; 212; 48; 200].

(** [uuid.uuid5]: the first 16 bytes of the SHA-1 of namespace and
    name, with the variant and version bits overwritten. *)
Definition uuid5 (namespace : bytes) (name : string) : Z :=
  let i := be_int (take 16 (Sha1.digest (namespace ++ str_encode name))) in
  let i := Z.ldiff i (Z.shiftl 49152 48) in
  let i := Z.lor i (Z.shiftl 32768 48) in
  let i := Z.ldiff i (Z.shiftl 61440 64) in
  Z.lor i (Z.shiftl 5 76).

Definition alpha (d : Z) : ascii := nth (Z.to_nat d) alphabet "2"%char.

(** The [while number:] loop of [int_to_string]; least significant
    digit first.  A number below [2^(fuel)] is used up in [fuel] steps. *)
Fixpoint digits (fuel : nat) (number : Z) : list ascii :=
  match fuel with
  | O => []
  | S f =>
      if number =? 0 then []
      else alpha (number mod 57) :: digits f (number / 57)
  end.

Definition int_to_string (number : Z) (padding : nat) : string :=
  let output := digits (S (Z.to_nat (Z.log2 number))) number in
  let output := output ++ repeat (alpha 0) (padding - length output) in
  string_of_list_ascii (rev output).

Definition lower (c : ascii) : ascii :=
  let n := byte_of_ascii c in
  if (65 <=? n) && (n <=? 90) then ascii_of_byte (n + 32) else c.

Fixpoint str_lower (s : string) : string :=
  match s with
  | EmptyString => EmptyString
  | String c r => String (lower c) (str_lower r)
  end.

Definition uuid (name : string) : string :=
  let l := str_lower name in
  let u := if String.prefix "http://" l || String.prefix "https://" l
           then uuid5 NAMESPACE_URL name
           else uuid5 NAMESPACE_DNS name in
  int_to_string u pad_length.

End ShortUUID.

(** ** JSON documents and [orjson.dumps] *)

(** What [orjson.loads] builds: a mapping keeps the order in which its
    keys were read, as a Python dict does. *)
#[local] Set Warnings "-register-all".
Inductive json : Type :=
| JNull
| JBool (b : bool)
| JInt (n : Z)
| JStr (s : string)
| JList (items : list json)
| JDict (entries : list (string * json)).

Module Orjson.

Definition escape (c : ascii) : string :=
  let n := byte_of_ascii c in
  if n =? 34 then String "\" (String dquote EmptyString)
  else if n =? 92 then "\\"
  else if n =? 8 then "\b"
  else if n =? 9 then "\t"
  else if n =? 10 then "\n"
  else if n =? 12 then "\f"
  else if n =? 13 then "\r"
  else if n <? 32 then "\u00" +:+ String (hex_digit (n / 16)) (String (hex_digit (n mod 16)) EmptyString)
  else String c EmptyString.

Fixpoint escape_all (s : string) : string :=
  match s with
  | EmptyString => EmptyString
  | String c r => escape c +:+ escape_all r
  end.

Definition quoted (s : string) : string :=
  String dquote (escape_all s +:+ String dquote EmptyString).

Definition decimal (n : Z) : string :=
  DecimalString.NilZero.string_of_int (Z.to_int n).

Fixpoint join (sep : string) (parts : list string) : string :=
  match parts with
  | [] => EmptyString
  | [p] => p
  | p :: rest => p +:+ sep +:+ join sep rest
  end.

(** Compact output, no spaces; without [OPT_SORT_KEYS] the keys of a
    mapping are written in the mapping's own order. *)
Fixpoint dumps_str (j : json) : string :=
  match j with
  | JNull => "null"
  | JBool true => "true"
  | JBool false => "false"
  | JInt n => decimal n
  | JStr s => quoted s
  | JList items => "[" +:+ join "," (map dumps_str items) +:+ "]"
  | JDict entries =>
      "{" +:+ join "," (map (fun kv => quoted (fst kv) +:+ ":" +:+ dumps_str (snd kv)) entries)
          +:+ "}"
  end.

(** How deep the containers of a document nest: 0 for a scalar, 1 for a
    list or a mapping of scalars (or an empty one). *)
Fixpoint depth (j : json) : nat :=
  match j with
  | JList items => S (list_max (map depth items))
  | JDict entries => S (list_max (map (fun kv => depth (snd kv)) entries))
  | _ => O
  end.

(** The serializer counts the containers it is inside of and gives up
    when it enters one with 255 around it. *)
Definition RECURSION_LIMIT : nat := 255.

(** The integers the serializer writes are those of 64 bits, signed or
    unsigned. *)
Fixpoint fits (j : json) : bool :=
  match j with
  | JInt n => (- 2 ^ 63 <=? n) && (n <? 2 ^ 64)
  | JList items => forallb fits items
  | JDict entries => forallb (fun kv => fits (snd kv)) entries
  | _ => true
  end.

(** [orjson.dumps]; [None] stands for [JSONEncodeError], a [TypeError],
    raised for a document nested too deep (Recursion limit reached) or
    holding an integer that exceeds the 64-bit range. *)
Definition dumps (j : json) : option bytes :=
  if (RECURSION_LIMIT <? depth j)%nat || negb (fits j) then None
  else Some (str_encode (dumps_str j)).

End Orjson.

(** ** String operations of Python's [str] that the view calls *)

Definition is_char (c d : ascii) : bool := Ascii.eqb c d.

(** [sep in s] for a one-character [sep]. *)
Fixpoint str_contains (sep : ascii) (s : string) : bool :=
  match s with
  | EmptyString => false
  | String c r => is_char c sep || str_contains sep r
  end.

Fixpoint str_last (s : string) : option ascii :=
  match s with
  | EmptyString => None
  | String c EmptyString => Some c
  | String _ r => str_last r
  end.

Definition startswith (s : string) (c : ascii) : bool :=
  match s with
  | String d _ => is_char d c
  | EmptyString => false
  end.

Definition endswith (s : string) (c : ascii) : bool :=
  match str_last s with
  | Some d => is_char d c
  | None => false
  end.

(** [s[:i]] and [s[i:]] where [i = s.index(sep)]: the text before the first
    [sep] and the text from it on. *)
Fixpoint before_first (sep : ascii) (s : string) : string :=
  match s with
  | EmptyString => EmptyString
  | String c r => if is_char c sep then EmptyString else String c (before_first sep r)
  end.

Fixpoint from_first (sep : ascii) (s : string) : string :=
  match s with
  | EmptyString => EmptyString
  | String c r => if is_char c sep then s else from_first sep r
  end.

(** [s[:-1]] *)
Fixpoint drop_last (s : string) : string :=
  match s with
  | EmptyString => EmptyString
  | String _ EmptyString => EmptyString
  | String c r => String c (drop_last r)
  end.

(** [s[1:-1]] *)
Definition strip_ends (s : string) : string :=
  match s with
  | EmptyString => EmptyString
  | String _ r => drop_last r
  end.

(** [s[:n]] *)
Fixpoint str_take (n : nat) (s : string) : string :=
  match n, s with
  | S k, String c r => String c (str_take k r)
  | _, _ => EmptyString
  end.

(** [s.split(sep)] for a one-character [sep]: never empty. *)
Fixpoint split (sep : ascii) (s : string) : list string :=
  match s with
  | EmptyString => [EmptyString]
  | String c r =>
      if is_char c sep then EmptyString :: split sep r
      else match split sep r with
           | p :: ps => String c p :: ps
           | [] => [String c EmptyString]
           end
  end.

(** [s.replace(old, empty)]: occurrences of [old] are removed from left to
    right without overlap.  [skip] counts the characters of an occurrence
    that are still to be dropped. *)
Fixpoint remove_from (skip : nat) (old s : string) : string :=
  match s with
  | EmptyString => EmptyString
  | String c r =>
      match skip with
      | S k => remove_from k old r
      | O =>
          if String.prefix old s
          then remove_from (Nat.pred (String.length old)) old r
          else String c (remove_from O old r)
      end
  end.

Definition str_remove (s old : string) : string :=
  match old with
  | EmptyString => s
  | _ => remove_from O old s
  end.

(** ** The object store *)

Abbreviation loc := nat.

Inductive value : Type :=
| VNone
| VBool (b : bool)
| VInt (n : Z)
| VStr (s : string)
| VRef (l : loc)                        (* a dict, a list or a class instance *)
| VMethod (self : loc) (name : string)  (* a method bound to an instance *)
| VNative.                              (* an object of the interpreter not modelled further *)

(** The classes the view tests with [isinstance]. *)
Inductive pyclass : Type := UnicornView | UnicornField | Model | PlainObject.

(** An instance is the finite map of every name [getattr] resolves on it,
    whether it comes from the instance or from its class; assignment is
    plain attribute assignment. *)
Inductive obj : Type :=
| ODict (entries : list (string * value))
| OList (items : list value)
| OInstance (cls : pyclass) (attrs : list (string * value)).

Abbreviation heap := (list obj).

Inductive message_text : Type :=
| Text (s : string)
| Unknown_action_type (action_type : value).   (* f"Unknown action_type '{action_type}'" *)

Inductive exn : Type :=
| UnicornViewError (msg : message_text)
| AssertionError (msg : message_text)
| AttributeError
| TypeError
| KeyError (key : string)
| ValueError
| RecursionError
| ComponentError (tag : string).   (* raised by the component's own code *)

Inductive outcome (A : Type) : Type :=
| Return (a : A)
| Raise (e : exn).
Arguments Return {A} a.
Arguments Raise {A} e.

(** A computation on the store.  What was written before an exception
    stays written. *)
Definition M (A : Type) : Type := heap -> outcome A * heap.

Definition ret {A} (a : A) : M A := fun h => (Return a, h).
Definition raise {A} (e : exn) : M A := fun h => (Raise e, h).
Definition bind {A B} (m : M A) (k : A -> M B) : M B :=
  fun h => match m h with
           | (Return a, h') => k a h'
           | (Raise e, h') => (Raise e, h')
           end.
Definition read {A} (f : heap -> A) : M A := fun h => (Return (f h), h).

Notation "'do' x <- m ; k" := (bind m (fun x => k))
  (at level 10, x name, m at level 100, k at level 200).
Notation "'do' ' p <- m ; k" := (bind m (fun x => let 'p := x in k))
  (at level 10, p pattern, m at level 100, k at level 200).
Notation "m >> k" := (bind m (fun _ => k))
  (at level 100, k at level 200, right associativity).

Definition obind {A B} (o : outcome A) (k : A -> outcome B) : outcome B :=
  match o with
  | Return a => k a
  | Raise e => Raise e
  end.

Definition lift {A} (o : outcome A) : M A := fun h => (o, h).

(** [for x in xs: body(x)] *)
Fixpoint for_each {A} (xs : list A) (body : A -> M unit) : M unit :=
  match xs with
  | [] => ret tt
  | x :: rest => body x >> for_each rest body
  end.

(** Insertion-ordered mappings: a key keeps its place when updated, a new
    key goes to the end. *)
Fixpoint assoc {A} (k : string) (l : list (string * A)) : option A :=
  match l with
  | [] => None
  | (k', v) :: r => if String.eqb k k' then Some v else assoc k r
  end.

Fixpoint assoc_set {A} (k : string) (v : A) (l : list (string * A)) : list (string * A) :=
  match l with
  | [] => [(k, v)]
  | (k', v') :: r => if String.eqb k k' then (k, v) :: r else (k', v') :: assoc_set k v r
  end.

Definition alloc (o : obj) : M value :=
  fun h => (Return (VRef (length h)), h ++ [o]).

Definition store (l : loc) (o : obj) : M unit :=
  fun h => (Return tt, <[l := o]> h).

Definition deref (h : heap) (v : value) : option obj :=
  match v with
  | VRef l => h !! l
  | _ => None
  end.

(** ** What the view takes from its surroundings

    The component classes ([django_unicorn.components]), the project's
    settings, the JSON parser and the attribute tables of the
    interpreter's built-in types are not part of the view module.  The
    view is embedded over any implementation of them. *)
Class Runtime : Type := {
  (** [settings.SECRET_KEY] *)
  SECRET_KEY : string;
  (** [orjson.loads]; [None] stands for [JSONDecodeError]. *)
  orjson_loads : bytes -> option json;
  (** Modelled from the spec: [createComponent(id, name, skipCache: bool)
      -> ComponentInstance], the class method [UnicornView.create]. *)
  UnicornView_create : json -> string -> bool -> M loc;
  (** Modelled from the spec: [ComponentInstance.attributes() ->
      mapping<string,any>], the public attributes of an instance. *)
  public_attributes : heap -> loc -> list (string * value);
  (** Modelled from the spec: [ComponentInstance.render() -> markupString]. *)
  component_render : loc -> M string;
  (** The body of the method [name] of the instance at [self]. *)
  call_method : loc -> string -> list value -> M value;
  (** Attribute lookup on values that are not class instances. *)
  native_getattr : heap -> value -> string -> option value;
  (** Calling an object of the interpreter (a built-in function or
      method, a class) with positional arguments. *)
  call_native : list value -> M value;
  (** How deep calls may nest below the view before the interpreter
      raises [RecursionError]. *)
  recursion_limit : nat
}.

(** ** Python operations on stored objects *)
Section Python.
Context {R : Runtime}.

(** [getattr(v, name)], [None] when it raises [AttributeError]. *)
Definition py_getattr (h : heap) (v : value) (name : string) : option value :=
  match deref h v with
  | Some (OInstance _ attrs) => assoc name attrs
  | _ => native_getattr h v name
  end.

Definition hasattr (h : heap) (v : value) (name : string) : bool :=
  match py_getattr h v name with
  | Some _ => true
  | None => false
  end.

(** [setattr(v, name, x)]: built-in objects take no new attributes. *)
Definition setattr (v : value) (name : string) (x : value) : M unit :=
  fun h =>
    match v, deref h v with
    | VRef l, Some (OInstance c attrs) =>
        (Return tt, <[l := OInstance c (assoc_set name x attrs)]> h)
    | _, _ => (Raise AttributeError, h)
    end.

Definition is_class (c d : pyclass) : bool :=
  match c, d with
  | UnicornView, UnicornView | UnicornField, UnicornField
  | Model, Model | PlainObject, PlainObject => true
  | _, _ => false
  end.

(** [isinstance(v, c)] for a class [c] of the components package. *)
Definition isinstance (h : heap) (v : value) (c : pyclass) : bool :=
  match deref h v with
  | Some (OInstance c' _) => is_class c' c
  | _ => false
  end.

(** [isinstance(v, dict)] *)
Definition isinstance_dict (h : heap) (v : value) : bool :=
  match deref h v with
  | Some (ODict _) => true
  | _ => false
  end.

(** Calling [f] with positional arguments [args]: a bound method runs
    its body, an object of the interpreter does what the interpreter
    says, an instance is called through its [__call__]; [None], numbers,
    strings, dicts and lists are not callable. *)
Definition py_call (f : value) (args : list value) : M value :=
  match f with
  | VMethod self name => call_method self name args
  | VNative => call_native args
  | VRef l =>
      fun h =>
        match h !! l with
        | Some (OInstance _ attrs) =>
            match assoc "__call__" attrs with
            | Some (VMethod self name) => call_method self name args h
            | Some VNative => call_native args h
            | _ => (Raise TypeError, h)
            end
        | _ => (Raise TypeError, h)
        end
  | _ => raise TypeError
  end.

(** [d[key] = x] on a dict. *)
Definition dict_setitem (d : value) (key : string) (x : value) : M unit :=
  fun h =>
    match d, deref h d with
    | VRef l, Some (ODict entries) =>
        (Return tt, <[l := ODict (assoc_set key x entries)]> h)
    | _, _ => (Raise TypeError, h)
    end.

(** [d[key]] on a dict. *)
Definition dict_getitem (d : value) (key : string) : M value :=
  fun h =>
    match deref h d with
    | Some (ODict entries) =>
        match assoc key entries with
        | Some x => (Return x, h)
        | None => (Raise (KeyError key), h)
        end
    | _ => (Raise TypeError, h)
    end.

(** [o[key] = x] on whatever [o] is: a dict stores the key; another
    object needs a [__setitem__]. *)
Definition py_setitem (o : value) (key : string) (x : value) : M unit :=
  fun h =>
    if isinstance_dict h o then dict_setitem o key x h
    else match py_getattr h o "__setitem__" with
         | Some f => (py_call f [VStr key; x] >> ret tt) h
         | None => (Raise TypeError, h)
         end.

(** [o.get(key)] and [o.get(key, default)]: a dict answers itself;
    another object needs a [get] attribute to call.  A default that is
    not handed out is garbage at once, so it is only built where it is
    returned or passed on. *)
Definition py_get (o : value) (key : string) (default : M value) : M value :=
  fun h =>
    match deref h o with
    | Some (ODict entries) =>
        match assoc key entries with
        | Some x => (Return x, h)
        | None => default h
        end
    | _ =>
        match py_getattr h o "get" with
        | Some f => (do dflt <- default; py_call f [VStr key; dflt]) h
        | None => (Raise AttributeError, h)
        end
    end.

(** [{}] *)
Definition new_dict : M value := alloc (ODict []).

(** [d.items()] of a JSON value, read at once. *)
Definition py_items (d : value) : M (list (string * value)) :=
  fun h =>
    match deref h d with
    | Some (ODict entries) => (Return entries, h)
    | _ => (Raise AttributeError, h)
    end.

Fixpoint chars (s : string) : list value :=
  match s with
  | EmptyString => []
  | String c r => VStr (String c EmptyString) :: chars r
  end.

(** [for x in v]: the elements of a list, the keys of a dict, the
    characters of a string; nothing else the view meets is iterable. *)
Definition py_iter (v : value) : M (list value) :=
  fun h =>
    match v, deref h v with
    | VStr s, _ => (Return (chars s), h)
    | _, Some (OList items) => (Return items, h)
    | _, Some (ODict entries) => (Return (map (fun kv => VStr (fst kv)) entries), h)
    | _, _ => (Raise TypeError, h)
    end.

(** [component._attributes()]: a new dict each time. *)
Definition _attributes (component : loc) : M value :=
  do entries <- read (fun h => public_attributes h component);
  alloc (ODict entries).

End Python.

(** ** Requests and responses *)

(** What the view and its decorators read from Django's [HttpRequest]:
    the method, whether the CSRF check of [csrf_protect] accepts the
    request, and the raw body. *)
Record HttpRequest : Type := {
  method : string;
  csrf_ok : bool;
  body : bytes
}.

(** What a [JsonResponse] carries, serialized when the response is
    built: the reply of a processed message, with the snapshot as the
    document it was written as, or an error. *)
Inductive response_content : Type :=
| Res (id : json) (dom : string) (data : json)
| ErrorRes (error : message_text).

Inductive HttpResponse : Type :=
| JsonResponse (content : response_content)
| HttpResponseNotAllowed
| HttpResponseForbidden.

Definition view : Type := HttpRequest -> option string -> M HttpResponse.

(** Truth value of a parsed JSON document. *)
Definition json_truthy (j : json) : bool :=
  match j with
  | JNull => false
  | JBool b => b
  | JInt n => negb (n =? 0)
  | JStr s => negb (String.eqb s EmptyString)
  | JList items => match items with [] => false | _ => true end
  | JDict entries => match entries with [] => false | _ => true end
  end.

(** [j.get(key, default)] on a parsed document: only a mapping has [get]. *)
Definition json_get (j : json) (key : string) (default : json) : outcome json :=
  match j with
  | JDict entries =>
      Return (match assoc key entries with Some v => v | None => default end)
  | _ => Raise AttributeError
  end.

Definition json_is_none (j : json) : bool :=
  match j with JNull => true | _ => false end.

(** [j == s] for a string [s]. *)
Definition json_is_str (j : json) (s : string) : bool :=
  match j with JStr t => String.eqb t s | _ => false end.

(** The token [validate_checksum] recomputes; [None] when [orjson.dumps]
    raises. *)
Definition generated_checksum (secret_key : string) (data : json) : option string :=
  match Orjson.dumps data with
  | Some serialized =>
      let generated_checksum := Hmac.hexdigest (str_encode secret_key) serialized in
      Some (str_take 8 (ShortUUID.uuid generated_checksum))
  | None => None
  end.

(** [class ComponentRequest].  The parser hands over objects nothing else
    refers to and the constructor only reads them, so it is embedded on
    the parsed tree; the view places [data] and [action_queue] in the
    store when it starts to work on them. *)
(** The raw body of the HTTP request; the class below has a [body] of its own. *)
Abbreviation request_body := body.

Module ComponentRequest.

Record t : Type := {
  body : json;
  data : json;
  id : json;
  action_queue : json
}.

Definition validate_checksum `{R : Runtime} (self_body self_data : json) : outcome unit :=
  obind (json_get self_body "checksum" JNull) (fun checksum =>
  if negb (json_truthy checksum) then Raise (AssertionError (Text "Missing checksum"))
  else
    match generated_checksum SECRET_KEY self_data with
    | None => Raise TypeError
    | Some generated_checksum =>
        if json_is_str checksum generated_checksum
        then Return tt
        else Raise (AssertionError (Text "Checksum does not match"))
    end).

Definition __init__ `{R : Runtime} (request : HttpRequest) : outcome t :=
  match orjson_loads (request_body request) with
  | None => Raise (UnicornViewError (Text "Body could not be parsed"))
  | Some self_body =>
      if negb (json_truthy self_body)
      then Raise (AssertionError (Text "Invalid JSON body"))
      else
        obind (json_get self_body "data" JNull) (fun self_data =>
        if json_is_none self_data then Raise (AssertionError (Text "Missing data"))
        else
          obind (json_get self_body "id" JNull) (fun self_id =>
          if negb (json_truthy self_id)
          then Raise (AssertionError (Text "Missing component id"))
          else
            obind (validate_checksum self_body self_data) (fun _ =>
            obind (json_get self_body "actionQueue" (JList [])) (fun self_action_queue =>
            Return {| body := self_body; data := self_data; id := self_id;
                      action_queue := self_action_queue |}))))
  end.

End ComponentRequest.

(** ** The functions of the view module *)
Section Views.
Context {R : Runtime}.

Definition handle_error (view_func : view) : view :=
  fun request component_name h =>
    match view_func request component_name h with
    | (Raise (UnicornViewError e), h') => (Return (JsonResponse (ErrorRes e)), h')
    | (Raise (AssertionError e), h') => (Return (JsonResponse (ErrorRes e)), h')
    | r => r
    end.

(** Django's decorators: the view runs only for a POST that passes the
    CSRF check. *)
Definition require_POST (view_func : view) : view :=
  fun request component_name =>
    if String.eqb (method request) "POST" then view_func request component_name
    else ret HttpResponseNotAllowed.

Definition csrf_protect (view_func : view) : view :=
  fun request component_name =>
    if csrf_ok request then view_func request component_name
    else ret HttpResponseForbidden.

Definition is_field_or_model (h : heap) (field : value) : bool :=
  isinstance h field UnicornField || isinstance h field Model.

(** [value.keys()] and [value[key]] are taken on request data, which is
    JSON: only a dict has them. *)
Fixpoint _set_property_from_data (depth : nat) (component_or_field : value)
    (name : string) (value : value) : M unit :=
  match depth with
  | O => raise RecursionError
  | S depth' =>
      do found <- read (fun h => py_getattr h component_or_field name);
      match found with
      | None => ret tt
      | Some field =>
          do nested <- read (fun h => is_field_or_model h field);
          if nested : bool then
            do items <- py_items value;
            for_each (map fst items) (fun key =>
              do key_value <- dict_getitem value key;
              _set_property_from_data depth' field key key_value)
          else setattr component_or_field name value
      end
  end.

(** The loop of [_set_property_from_payload] over the parts of the
    dotted name; the part in hand is the last one when none follows.
    [hasattr] holds when [getattr] finds the part. *)
Fixpoint set_parts (property_name_parts : list string)
    (component_or_field data_or_dict property_value : value) : M unit :=
  match property_name_parts with
  | [] => ret tt
  | property_name_part :: rest =>
      let last := match rest with [] => true | _ => false end in
      do found <- read (fun h => py_getattr h component_or_field property_name_part);
      match found with
      | Some field =>
          if last then
            setattr component_or_field property_name_part property_value >>
            py_setitem data_or_dict property_name_part property_value
          else
            do data_or_dict' <- py_get data_or_dict property_name_part new_dict;
            set_parts rest field data_or_dict' property_value
      | None =>
          do is_dict <- read (fun h => isinstance_dict h component_or_field);
          if is_dict : bool then
            if last then
              dict_setitem component_or_field property_name_part property_value >>
              py_setitem data_or_dict property_name_part property_value
            else
              do item <- dict_getitem component_or_field property_name_part;
              do data_or_dict' <- py_get data_or_dict property_name_part new_dict;
              set_parts rest item data_or_dict' property_value
          else set_parts rest component_or_field data_or_dict property_value
      end
  end.

Definition _set_property_from_payload (component : loc) (payload data : value) : M unit :=
  do property_name <- py_get payload "name" (ret VNone);
  do property_value <- py_get payload "value" (ret VNone);
  match property_name, property_value with
  | VNone, _ => ret tt
  | _, VNone => ret tt
  | VStr name, _ => set_parts (split "." name) (VRef component) data property_value
  | _, _ => raise AttributeError   (* no [split] on what is not a string *)
  end.

Definition _handle_arg (arg : string) : value :=
  if (startswith arg "'" && endswith arg "'")
     || (startswith arg dquote && endswith arg dquote)
  then VStr (strip_ends arg)
  else VNone.

Definition _parse_call_method_name (call_method_name : string) : string * list value :=
  if str_contains "(" call_method_name && endswith call_method_name ")" then
    let params_str := from_first "(" call_method_name in
    let method_name := str_remove call_method_name params_str in
    let params_str := strip_ends params_str in
    if String.eqb params_str EmptyString then (method_name, [])
    else (method_name, map _handle_arg (split "," params_str))
  else (call_method_name, []).

Definition _call_method_name (component : loc) (method_name : string)
    (params : list value) (data : value) : M unit :=
  do found <- read (fun h => py_getattr h (VRef component) method_name);
  match found with
  | None => ret tt
  | Some func =>
      py_call func params >>
      do attributes <- _attributes component;
      do items <- py_items attributes;
      for_each items (fun kv => py_setitem data (fst kv) (snd kv))
  end.

End Views.

(** ** The endpoint *)
Section Endpoint.
Context {R : Runtime}.

(** The objects of a parsed document, placed in the store.  The keys of
    a parsed mapping are distinct. *)
Fixpoint reify (j : json) : M value :=
  match j with
  | JNull => ret VNone
  | JBool b => ret (VBool b)
  | JInt n => ret (VInt n)
  | JStr s => ret (VStr s)
  | JList items =>
      do vs <- (fix each (l : list json) : M (list value) :=
                  match l with
                  | [] => ret []
                  | x :: r => do v <- reify x; do vs <- each r; ret (v :: vs)
                  end) items;
      alloc (OList vs)
  | JDict entries =>
      do kvs <- (fix each (l : list (string * json)) : M (list (string * value)) :=
                   match l with
                   | [] => ret []
                   | kv :: r =>
                       do v <- reify (snd kv); do kvs <- each r; ret ((fst kv, v) :: kvs)
                   end) entries;
      alloc (ODict kvs)
  end.

Definition truthy (h : heap) (v : value) : bool :=
  match v with
  | VNone => false
  | VBool b => b
  | VInt n => negb (n =? 0)
  | VStr s => negb (String.eqb s EmptyString)
  | VRef l =>
      match h !! l with
      | Some (ODict []) | Some (OList []) => false
      | _ => true
      end
  | _ => true
  end.

(** [v == s] for a string [s]. *)
Definition is_str (v : value) (s : string) : bool :=
  match v with VStr t => String.eqb t s | _ => false end.

(** [s in v] for a string [s] and a [v] that is not a string: an
    element of a list, a key of a dict. *)
Definition py_contains (v : value) (s : string) : M bool :=
  fun h =>
    match deref h v with
    | Some (OList items) => (Return (existsb (fun x => is_str x s) items), h)
    | Some (ODict entries) =>
        (Return (match assoc s entries with Some _ => true | None => false end), h)
    | _ => (Raise TypeError, h)
    end.

(** [json.dumps] with Django's encoder, which [JsonResponse] runs on its
    argument at once.  [None], booleans, numbers and strings are written
    as they are, a dict and a list with what they hold; a container that
    holds itself is a circular reference ([ValueError]), one nested deeper
    than the interpreter recurses a [RecursionError], and an instance, a
    method or an object of the interpreter is not JSON serializable
    ([TypeError]).  [markers] are the containers being written. *)
Fixpoint json_dumps (fuel : nat) (markers : list loc) (h : heap) (v : value)
    : outcome json :=
  match v with
  | VNone => Return JNull
  | VBool b => Return (JBool b)
  | VInt n => Return (JInt n)
  | VStr s => Return (JStr s)
  | VRef l =>
      match fuel with
      | O => Raise RecursionError
      | S fuel' =>
          if existsb (Nat.eqb l) markers then Raise ValueError
          else
            match h !! l with
            | Some (ODict entries) =>
                obind ((fix each (kvs : list (string * value))
                          : outcome (list (string * json)) :=
                          match kvs with
                          | [] => Return []
                          | kv :: r =>
                              obind (json_dumps fuel' (l :: markers) h (snd kv)) (fun j =>
                              obind (each r) (fun js => Return ((fst kv, j) :: js)))
                          end) entries)
                      (fun js => Return (JDict js))
            | Some (OList items) =>
                obind ((fix each (vs : list value) : outcome (list json) :=
                          match vs with
                          | [] => Return []
                          | x :: r =>
                              obind (json_dumps fuel' (l :: markers) h x) (fun j =>
                              obind (each r) (fun js => Return (j :: js)))
                          end) items)
                      (fun js => Return (JList js))
            | _ => Raise TypeError
            end
      end
  | _ => Raise TypeError
  end.

(** [JsonResponse({"id": ..., "dom": ..., "data": ...})]: the id is the
    document the request carried, the markup a string, the snapshot
    whatever the actions left in it. *)
Definition json_response (component_id : json) (rendered_component : string)
    (data : value) : M HttpResponse :=
  fun h =>
    if (recursion_limit <? Orjson.depth component_id)%nat then (Raise RecursionError, h)
    else
      match json_dumps recursion_limit [] h data with
      | Return written =>
          (Return (JsonResponse (Res component_id rendered_component written)), h)
      | Raise e => (Raise e, h)
      end.

(** What the loop of [message] rebinds: the component and the snapshot
    [component_request.data]. *)
Definition loop_state : Type := loc * value.

(** One turn of the loop over the action queue. *)
Definition apply_action (component_id : json) (component_name : string)
    (st : loop_state) (action : value) : M loop_state :=
  let '(component, data) := st in
  do action_type <- py_get action "type" (ret VNone);
  do payload <- py_get action "payload" new_dict;
  if is_str action_type "syncInput" then
    _set_property_from_payload component payload data >> ret (component, data)
  else if is_str action_type "callMethod" then
    do call_method_name <- py_get payload "name" (ret (VStr EmptyString));
    do named <- read (fun h => truthy h call_method_name);
    if negb named then raise (AssertionError (Text "Missing 'name' key for callMethod"))
    else
      match call_method_name with
      | VStr call_method_name =>
          if String.eqb call_method_name "reset" || String.eqb call_method_name "reset()"
          then
            do component <- UnicornView_create component_id component_name true;
            do data <- _attributes component;
            ret (component, data)
          else if str_contains "=" call_method_name then
            let call_method_name_split := split "=" call_method_name in
            let property_name := nth 0 call_method_name_split EmptyString in
            let property_value := _handle_arg (nth 1 call_method_name_split EmptyString) in
            do has <- read (fun h => hasattr h (VRef component) property_name);
            if has : bool then
              setattr (VRef component) property_name property_value >>
              py_setitem data property_name property_value >>
              ret (component, data)
            else ret (component, data)
          else
            let '(method_name, params) := _parse_call_method_name call_method_name in
            _call_method_name component method_name params data >> ret (component, data)
      | _ =>
          (* A name that is a list or a dict: [split] and [endswith] are
             missing, and [hasattr] refuses a name that is not a string. *)
          do assignment <- py_contains call_method_name "=";
          if assignment : bool then raise AttributeError
          else
            do call <- py_contains call_method_name "(";
            if call : bool then raise AttributeError else raise TypeError
      end
  else raise (UnicornViewError (Unknown_action_type action_type)).

Fixpoint run_actions (component_id : json) (component_name : string)
    (action_queue : list value) (st : loop_state) : M loop_state :=
  match action_queue with
  | [] => ret st
  | action :: rest =>
      do st' <- apply_action component_id component_name st action;
      run_actions component_id component_name rest st'
  end.

Definition message_body : view :=
  fun request component_name =>
    match component_name with
    | None | Some EmptyString =>
        raise (AssertionError (Text "Missing component name in url"))
    | Some component_name =>
        do component_request <- lift (ComponentRequest.__init__ request);
        do data <- reify (ComponentRequest.data component_request);
        do action_queue <- reify (ComponentRequest.action_queue component_request);
        let component_id := ComponentRequest.id component_request in
        do component <- UnicornView_create component_id component_name false;
        do items <- py_items data;
        for_each items (fun kv =>
          _set_property_from_data recursion_limit (VRef component) (fst kv) (snd kv)) >>
        do actions <- py_iter action_queue;
        do st <- run_actions component_id component_name actions (component, data);
        let '(component, data) := st in
        do rendered_component <- component_render component;
        json_response component_id rendered_component data
    end.

Definition message : view :=
  handle_error (csrf_protect (require_POST message_body)).

End Endpoint.

(** ** A sample project

    The component of the docstring of [_set_property_from_payload], given
    a counter as well:
<<
    class Author(UnicornField):
        name = "Neil"

    class TestView(UnicornView):
        author = Author()
        count = 0

        def increment(self):
            self.count += 1
>>
    together with a JSON reader for documents without floating-point
    numbers and unicode escapes.  The examples below run the view on it. *)
Module Sample.

Definition is_space (c : ascii) : bool :=
  let n := byte_of_ascii c in (n =? 32) || (n =? 9) || (n =? 10) || (n =? 13).

Definition is_digit (c : ascii) : bool :=
  let n := byte_of_ascii c in (48 <=? n) && (n <=? 57).

Fixpoint skip_space (s : string) : string :=
  match s with
  | String c r => if is_space c then skip_space r else s
  | EmptyString => s
  end.

Definition unescape (c : ascii) : option ascii :=
  let n := byte_of_ascii c in
  if (n =? 34) || (n =? 92) || (n =? 47) then Some c
  else if n =? 98 then Some (ascii_of_byte 8)
  else if n =? 116 then Some (ascii_of_byte 9)
  else if n =? 110 then Some (ascii_of_byte 10)
  else if n =? 102 then Some (ascii_of_byte 12)
  else if n =? 114 then Some (ascii_of_byte 13)
  else None.

(** The text of a string literal, read after its opening quote. *)
Fixpoint read_string (s : string) : option (string * string) :=
  match s with
  | EmptyString => None
  | String c r =>
      if is_char c dquote then Some (EmptyString, r)
      else if is_char c "\" then
        match r with
        | String e r' =>
            match unescape e, read_string r' with
            | Some x, Some (t, rest) => Some (String x t, rest)
            | _, _ => None
            end
        | EmptyString => None
        end
      else if byte_of_ascii c <? 32 then None
      else match read_string r with
           | Some (t, rest) => Some (String c t, rest)
           | None => None
           end
  end.

Fixpoint read_digits (acc : Z) (s : string) : Z * string :=
  match s with
  | String c r =>
      if is_digit c then read_digits (10 * acc + (byte_of_ascii c - 48)) r else (acc, s)
  | EmptyString => (acc, s)
  end.

Definition read_natural (s : string) : option (Z * string) :=
  match s with
  | String c r =>
      if is_char c "0" then
        match r with
        | String d _ => if is_digit d then None else Some (0, r)
        | EmptyString => Some (0, r)
        end
      else if is_digit c then Some (read_digits 0 s)
      else None
  | EmptyString => None
  end.

(** No fraction and no exponent may follow. *)
Definition integer_ends (s : string) : bool :=
  match s with
  | String c _ => negb (is_char c "." || is_char c "e" || is_char c "E")
  | EmptyString => true
  end.

Definition read_literal (word : string) (j : json) (s : string) : option (json * string) :=
  if String.prefix word s
  then Some (j, String.substring (String.length word) (String.length s) s)
  else None.

Fixpoint read_value (fuel : nat) (s : string) : option (json * string) :=
  match fuel with
  | O => None
  | S fuel' =>
      match skip_space s with
      | EmptyString => None
      | String c r as s' =>
          if is_char c "n" then read_literal "null" JNull s'
          else if is_char c "t" then read_literal "true" (JBool true) s'
          else if is_char c "f" then read_literal "false" (JBool false) s'
          else if is_char c dquote then
            match read_string r with
            | Some (t, rest) => Some (JStr t, rest)
            | None => None
            end
          else if is_char c "-" then
            match read_natural r with
            | Some (n, rest) => if integer_ends rest then Some (JInt (- n), rest) else None
            | None => None
            end
          else if is_digit c then
            match read_natural s' with
            | Some (n, rest) => if integer_ends rest then Some (JInt n, rest) else None
            | None => None
            end
          else if is_char c "[" then
            match skip_space r with
            | String d r' as inner =>
                if is_char d "]" then Some (JList [], r')
                else match read_items fuel' inner with
                     | Some (items, rest) => Some (JList items, rest)
                     | None => None
                     end
            | EmptyString => None
            end
          else if is_char c "{" then
            match skip_space r with
            | String d r' as inner =>
                if is_char d "}" then Some (JDict [], r')
                else match read_members fuel' inner with
                     | Some (entries, rest) => Some (JDict entries, rest)
                     | None => None
                     end
            | EmptyString => None
            end
          else None
      end
  end
with read_items (fuel : nat) (s : string) : option (list json * string) :=
  match fuel with
  | O => None
  | S fuel' =>
      match read_value fuel' s with
      | Some (x, rest) =>
          match skip_space rest with
          | String c r =>
              if is_char c "]" then Some ([x], r)
              else if is_char c "," then
                match read_items fuel' r with
                | Some (xs, rest') => Some (x :: xs, rest')
                | None => None
                end
              else None
          | EmptyString => None
          end
      | None => None
      end
  end
with read_members (fuel : nat) (s : string) : option (list (string * json) * string) :=
  match fuel with
  | O => None
  | S fuel' =>
      match skip_space s with
      | String q r =>
          if is_char q dquote then
            match read_string r with
            | Some (k, after_key) =>
                match skip_space after_key with
                | String colon after_colon =>
                    if is_char colon ":" then
                      match read_value fuel' after_colon with
                      | Some (x, rest) =>
                          match skip_space rest with
                          | String c r' =>
                              if is_char c "}" then Some ([(k, x)], r')
                              else if is_char c "," then
                                match read_members fuel' r' with
                                | Some (more, rest') => Some ((k, x) :: more, rest')
                                | None => None
                                end
                              else None
                          | EmptyString => None
                          end
                      | None => None
                      end
                    else None
                | EmptyString => None
                end
            | None => None
            end
          else None
      | EmptyString => None
      end
  end.

(** A dict keeps one entry per key: a repeated key overwrites. *)
Fixpoint distinct_keys (j : json) : json :=
  match j with
  | JList items => JList (map distinct_keys items)
  | JDict entries =>
      JDict (fold_left (fun acc kv => assoc_set (fst kv) (distinct_keys (snd kv)) acc)
                       entries [])
  | _ => j
  end.

Definition loads (b : bytes) : option json :=
  let s := bytes_decode b in
  match read_value (S (String.length s)) s with
  | Some (j, rest) =>
      match skip_space rest with
      | EmptyString => Some (distinct_keys j)
      | _ => None
      end
  | None => None
  end.

(** The store a fresh process starts from: the [Author] that the class
    attribute [TestView.author] holds, shared by every [TestView], and the
    cache of constructed views, a dict from component id to instance. *)
Definition author : loc := 0%nat.
Definition constructed_views_cache : loc := 1%nat.

Definition initial : heap :=
  [OInstance UnicornField [("name", VStr "Neil")]; ODict []].

Definition test_view (self : loc) : obj :=
  OInstance UnicornView
    [("author", VRef author); ("count", VInt 0); ("increment", VMethod self "increment")].

Definition cache_key (component_id : json) : string :=
  match component_id with
  | JStr s => s
  | other => Orjson.dumps_str other
  end.

(** [UnicornView.create]: the cached instance of the id, unless the cache
    is to be skipped or has none; a new instance is cached under its id. *)
Definition create (component_id : json) (component_name : string) (skip_cache : bool)
    : M loc :=
  fun h =>
    if negb (String.eqb component_name "test") then (Raise (ComponentError "no such component"), h)
    else
      match h !! constructed_views_cache with
      | Some (ODict cache) =>
          match assoc (cache_key component_id) cache, skip_cache with
          | Some (VRef cached), false => (Return cached, h)
          | _, _ =>
              let self := length h in
              let cache' := assoc_set (cache_key component_id) (VRef self) cache in
              (Return self, <[constructed_views_cache := ODict cache']> (h ++ [test_view self]))
          end
      | _ => (Raise (ComponentError "no cache"), h)
      end.

Definition is_public (entry : string * value) : bool :=
  match snd entry with
  | VMethod _ _ => false
  | _ => negb (startswith (fst entry) "_")
  end.

Definition attributes (h : heap) (component : loc) : list (string * value) :=
  match h !! component with
  | Some (OInstance _ attrs) => filter (fun entry => is_public entry = true) attrs
  | _ => []
  end.

Definition attribute (h : heap) (self : loc) (name : string) : option value :=
  match h !! self with
  | Some (OInstance _ attrs) => assoc name attrs
  | _ => None
  end.

Definition render (component : loc) : M string :=
  fun h =>
    match attribute h component "count" with
    | Some (VInt n) => (Return ("<p>" +:+ Orjson.decimal n +:+ "</p>"), h)
    | _ => (Raise (ComponentError "count is not a number"), h)
    end.

(** [increment] takes no argument; the class has no other method. *)
Definition call (self : loc) (name : string) (args : list value) : M value :=
  fun h =>
    if String.eqb name "increment" then
      match args, h !! self, attribute h self "count" with
      | [], Some (OInstance c attrs), Some (VInt n) =>
          (Return VNone, <[self := OInstance c (assoc_set "count" (VInt (n + 1)) attrs)]> h)
      | _, _, _ => (Raise TypeError, h)
      end
    else (Raise AttributeError, h).

(** A few of the names the built-in types answer to. *)
Definition dict_names : list string :=
  ["get"; "keys"; "items"; "values"; "update"; "pop"; "setdefault"; "clear"; "copy";
   "__setitem__"; "__getitem__"; "__class__"; "__doc__"].
Definition list_names : list string :=
  ["append"; "extend"; "insert"; "pop"; "index"; "count"; "sort"; "reverse"; "clear";
   "copy"; "__setitem__"; "__getitem__"; "__class__"; "__doc__"].
Definition str_names : list string :=
  ["split"; "replace"; "startswith"; "endswith"; "index"; "lower"; "upper"; "strip";
   "encode"; "format"; "join"; "__getitem__"; "__class__"; "__doc__"].
Definition other_names : list string := ["__class__"; "__doc__"].

Definition knows (names : list string) (name : string) : option value :=
  if existsb (String.eqb name) names then Some VNative else None.

Definition native (h : heap) (v : value) (name : string) : option value :=
  match v with
  | VStr _ => knows str_names name
  | VRef l =>
      match h !! l with
      | Some (ODict _) => knows dict_names name
      | Some (OList _) => knows list_names name
      | _ => None
      end
  | _ => knows other_names name
  end.

(** The objects of the interpreter this project can come to call are
    the [__setitem__] of a list, handed a string where it wants an index. *)
Definition call_builtin (args : list value) : M value :=
  fun h => (Raise TypeError, h).

(** The project under a given [SECRET_KEY]. *)
Definition with_key (key : string) : Runtime := {|
  SECRET_KEY := key;
  orjson_loads := loads;
  UnicornView_create := create;
  public_attributes := attributes;
  component_render := render;
  call_method := call;
  native_getattr := native;
  call_native := call_builtin;
  recursion_limit := 1000
|}.

Definition runtime : Runtime := with_key "secret".

(** A POST that passes the CSRF check. *)
Definition post (text : string) : HttpRequest :=
  {| method := "POST"; csrf_ok := true; body := str_encode text |}.

(** A store in which a [TestView] has been constructed at location 2; the
    objects of a request follow it. *)
Definition component : loc := 2%nat.

Definition store_with (objects : list obj) : heap :=
  initial ++ [test_view component] ++ objects.

(** A text with every [|] turned into a double quote. *)
Fixpoint q (s : string) : string :=
  match s with
  | EmptyString => EmptyString
  | String c r => String (if is_char c "|" then dquote else c) (q r)
  end.

End Sample.

(** ** Notions the properties are stated with *)

(** [d.get(key)] for the entries of a dict [d]: [None] for a missing key. *)
Definition entry (entries : list (string * value)) (key : string) : value :=
  match assoc key entries with
  | Some x => x
  | None => VNone
  end.

(** Python's [==] on parsed documents: two mappings are equal when they
    have the same keys with equal values, in whatever order. *)
Fixpoint json_eqb (a b : json) : bool :=
  match a, b with
  | JNull, JNull => true
  | JBool x, JBool y => Bool.eqb x y
  | JInt x, JInt y => x =? y
  | JStr x, JStr y => String.eqb x y
  | JList xs, JList ys =>
      (fix all2 (l : list json) (r : list json) : bool :=
         match l, r with
         | [], [] => true
         | x :: l', y :: r' => json_eqb x y && all2 l' r'
         | _, _ => false
         end) xs ys
  | JDict xs, JDict ys =>
      (length xs =? length ys)%nat
      && forallb (fun kv =>
                    match assoc (fst kv) ys with
                    | Some y => json_eqb (snd kv) y
                    | None => false
                    end) xs
  | _, _ => false
  end.

Definition unhex (c : ascii) : Z :=
  let n := byte_of_ascii c in if n <? 58 then n - 48 else n - 87.

Definition unescape (c : ascii) : ascii :=
  let n := byte_of_ascii c in
  if n =? 98 then ascii_of_byte 8
  else if n =? 116 then ascii_of_byte 9
  else if n =? 110 then ascii_of_byte 10
  else if n =? 102 then ascii_of_byte 12
  else if n =? 114 then ascii_of_byte 13
  else c.

(** Reads back what [Orjson.quoted] wrote after its opening quote: the
    text up to the closing quote, and what follows it. *)
Fixpoint read_quoted (s : string) : option (string * string) :=
  match s with
  | EmptyString => None
  | String c r =>
      if is_char c dquote then Some (EmptyString, r)
      else if is_char c "\" then
        match r with
        | String e r1 =>
            if is_char e "u" then
              match r1 with
              | String _ (String _ (String h1 (String h2 r2))) =>
                  match read_quoted r2 with
                  | Some (t, rest) =>
                      Some (String (ascii_of_byte (16 * unhex h1 + unhex h2)) t, rest)
                  | None => None
                  end
              | _ => None
              end
            else
              match read_quoted r1 with
              | Some (t, rest) => Some (String (unescape e) t, rest)
              | None => None
              end
        | EmptyString => None
        end
      else
        match read_quoted r with
        | Some (t, rest) => Some (String c t, rest)
        | None => None
        end
  end.

(** The call expressions of section 4.4 of the specification, in its
    words: a token wrapped in a pair of matching quotes is the text
    between them, any other token is absent. *)
Definition wrapped_in (quote : ascii) (token : string) : option string :=
  match token with
  | String c r =>
      if is_char c quote && endswith r quote then Some (drop_last r) else None
  | EmptyString => None
  end.

Definition normalize_argument (token : string) : value :=
  match wrapped_in "'" token, wrapped_in dquote token with
  | Some inner, _ => VStr inner
  | None, Some inner => VStr inner
  | None, None => VNone
  end.

Definition parse_call_expression (expression : string) : string * list value :=
  if str_contains "(" expression && endswith expression ")" then
    let inner := strip_ends (from_first "(" expression) in
    (before_first "(" expression,
     if String.eqb inner EmptyString then []
     else map normalize_argument (split "," inner))
  else (expression, []).

(** A token that is one quote character and nothing else. *)
Definition lone_quote (token : string) : bool :=
  String.eqb token "'" || String.eqb token (String dquote EmptyString).

(** [s.count(c)] for a character [c]. *)
Fixpoint count_char (c : ascii) (s : string) : nat :=
  match s with
  | EmptyString => O
  | String d r => if is_char d c then S (count_char c r) else count_char c r
  end.

(** A call expression written out: the method name, then in parentheses
    the arguments, each in single quotes, with commas between them. *)
Definition quote_argument (argument : string) : string :=
  String "'" (argument +:+ "'").

Definition call_expression (name : string) (arguments : list string) : string :=
  name +:+ String "(" (Orjson.join "," (map quote_argument arguments) +:+ ")").

(** The entries of a dict after [d[k] = v] for each [(k, v)] in turn. *)
Definition assoc_update (updates entries : list (string * value)) : list (string * value) :=
  fold_left (fun acc kv => assoc_set (fst kv) (snd kv) acc) updates entries.

(** The attributes of an object after [setattr(o, k, v)] for each
    [(k, v)] whose [k] the object has at that moment. *)
Definition assoc_overwrite (updates attrs : list (string * value)) : list (string * value) :=
  fold_left (fun acc kv =>
               match assoc (fst kv) acc with
               | Some _ => assoc_set (fst kv) (snd kv) acc
               | None => acc
               end) updates attrs.

(** The token in the words of the specification: the HMAC-SHA256 of the
    serialized state keyed by the secret, as hexadecimal digits, reduced
    by the shortuuid encoding and cut to 8 characters. *)
Definition specified_token (secret : string) (serialized : bytes) : string :=
  let mac := Hmac.digest (str_encode secret) serialized in
  str_take 8 (ShortUUID.uuid (hex_of_bytes mac)).

(** A state of one key whose value is such a state again, [n] mappings
    deep around a number. *)
Fixpoint nested (n : nat) : json :=
  match n with
  | O => JInt 0
  | S k => JDict [("a", nested k)]
  end.

(** The body of a request for the component [abc] with the given state
    and checksum, as text. *)
Definition request_text (data : json) (checksum : string) : string :=
  "{" +:+ Orjson.quoted "id" +:+ ":" +:+ Orjson.quoted "abc" +:+ ","
      +:+ Orjson.quoted "data" +:+ ":" +:+ Orjson.dumps_str data +:+ ","
      +:+ Orjson.quoted "checksum" +:+ ":" +:+ Orjson.quoted checksum +:+ "}".


(** Values that hold data and nothing to call: [None], a boolean, a
    number, a string, a dict or a list. *)
Definition plain_data (h : heap) (v : value) : bool :=
  match v with
  | VNone | VBool _ | VInt _ | VStr _ => true
  | VRef l =>
      match h !! l with
      | Some (ODict _) | Some (OList _) => true
      | _ => false
      end
  | _ => false
  end.



(** [c] is no dict and has none of the [names]. *)
Definition lacks `{R : Runtime} (h : heap) (c : value) (names : list string) : Prop :=
  forall more : heap,
    isinstance_dict (h ++ more) c = false /\
    Forall (fun name => py_getattr (h ++ more) c name = None) names.

(** As far as the snapshot [d] has the keys of [path], one inside the
    other, it has dicts under them (what it has under the last key is
    not looked into). *)
Fixpoint mirrored (h : heap) (d : value) (path : list string) : bool :=
  match path with
  | [] => true
  | part :: rest =>
      match deref h d with
      | Some (ODict entries) =>
          match assoc part entries with
          | Some d' => mirrored h d' rest
          | None => true
          end
      | _ => false
      end
  end.

(** Two stores of which the second has the objects of the first at the
    same places, except that instances may have other attribute values;
    every instance keeps its class, every dict and list its content. *)
Definition only_instances_change (h h' : heap) : Prop :=
  length h' = length h /\
  forall l : loc,
    match h !! l with
    | Some (OInstance cls _) => exists attrs', h' !! l = Some (OInstance cls attrs')
    | other => h' !! l = other
    end.

(** * Properties *)

(** ** Strings *)

Lemma is_char_true (c d : ascii) : is_char c d = true -> c = d.
Proof. unfold is_char. apply Ascii.eqb_eq. Qed.

Lemma is_char_false (c d : ascii) : is_char c d = false -> c <> d.
Proof. unfold is_char. apply Ascii.eqb_neq. Qed.

Lemma prefix_same (s : string) : String.prefix s s = true.
Proof.
  induction s as [|c s IH]; simpl; [reflexivity|].
  destruct (ascii_dec c c); [exact IH | congruence].
Qed.

Lemma remove_from_all (old r : string) :
  forall n : nat, (String.length r <= n)%nat -> remove_from n old r = EmptyString.
Proof.
  induction r as [|c r IH]; intros n Hn; simpl in *; [reflexivity|].
  destruct n as [|n]; [lia|]. apply IH. lia.
Qed.

Lemma from_first_head (sep : ascii) (s : string) :
  str_contains sep s = true -> exists t, from_first sep s = String sep t.
Proof.
  induction s as [|c s IH]; simpl; [discriminate|].
  destruct (is_char c sep) eqn:E; simpl.
  - intros _. apply is_char_true in E. subst. eauto.
  - exact IH.
Qed.

(** Removing from a text what starts at the first [sep] leaves what
    stands before that [sep]: the text holds this tail only once. *)
Lemma str_remove_tail (sep : ascii) (s : string) :
  str_contains sep s = true ->
  str_remove s (from_first sep s) = before_first sep s.
Proof.
  intros Hc.
  transitivity (remove_from O (from_first sep s) s).
  { destruct (from_first_head sep s Hc) as [t Ht].
    unfold str_remove. rewrite Ht. reflexivity. }
  induction s as [|c s IH]; simpl in *; [discriminate|].
  destruct (is_char c sep) eqn:E; simpl in *.
  - destruct (ascii_dec c c); [|congruence].
    rewrite prefix_same. apply remove_from_all. lia.
  - destruct (from_first_head sep s Hc) as [t Ht]. rewrite Ht.
    destruct (ascii_dec sep c) as [->|_].
    + apply is_char_false in E. congruence.
    + rewrite <- Ht. f_equal. apply IH. exact Hc.
Qed.

(** ** Call expressions *)

Lemma handle_arg_cases (token : string) :
  _handle_arg token =
  if lone_quote token then VStr EmptyString else normalize_argument token.
Proof.
  unfold _handle_arg, lone_quote, normalize_argument, wrapped_in.
  destruct token as [|c [|d r]].
  - reflexivity.
  - unfold startswith, endswith, is_char; simpl.
    destruct (Ascii.eqb c "'"), (Ascii.eqb c dquote); reflexivity.
  - unfold startswith. simpl String.eqb.
    change (endswith (String c (String d r))) with (endswith (String d r)).
    change (strip_ends (String c (String d r))) with (drop_last (String d r)).
    unfold is_char at 1 2 3 4.
    destruct (Ascii.eqb c "'"), (Ascii.eqb c dquote),
      (endswith (String d r) "'"), (endswith (String d r) dquote); reflexivity.
Qed.

(** C5, counterexample: the argument of [f(')] is one quote character,
    which no pair of quotes wraps, yet the parser returns the empty
    string for it where the specification has an absent value. *)
Lemma lone_quote_argument_is_not_absent :
  _parse_call_method_name "f(')" = ("f", [VStr EmptyString]) /\
  parse_call_expression "f(')" = ("f", [VNone]) /\
  _parse_call_method_name "f(')" <> parse_call_expression "f(')".
Proof. repeat split; try reflexivity. vm_compute. discriminate. Qed.

(** C5, amended: a call expression that contains [(] and ends with [)]
    parses to the text before the first [(] and, unless nothing stands
    between the parentheses, to the comma-split of the text between the
    first [(] and the final [)], each token normalized: a token wrapped
    in a pair of matching quotes becomes the text between them, a token
    that is one lone quote character becomes the empty string, any other
    token becomes [None].  Any other expression is the method name, with
    no argument. *)
Theorem parse_call_method_name_spec :
  (forall expression : string,
     _parse_call_method_name expression =
     if str_contains "(" expression && endswith expression ")" then
       let inner := strip_ends (from_first "(" expression) in
       (before_first "(" expression,
        if String.eqb inner EmptyString then []
        else map (fun token => if lone_quote token then VStr EmptyString
                               else normalize_argument token)
                 (split "," inner))
     else (expression, [])) /\
  _parse_call_method_name "setName('Bob')" = ("setName", [VStr "Bob"]) /\
  _parse_call_method_name "increment" = ("increment", []) /\
  _parse_call_method_name "setName()" = ("setName", []).
Proof.
  split; [|repeat split; reflexivity].
  intros expression. unfold _parse_call_method_name.
  destruct (str_contains "(" expression) eqn:Hc; simpl; [|reflexivity].
  destruct (endswith expression ")"); [|reflexivity].
  rewrite str_remove_tail by exact Hc.
  destruct (String.eqb (strip_ends (from_first "(" expression)) EmptyString); [reflexivity|].
  f_equal. apply map_ext. intros token. apply handle_arg_cases.
Qed.

(** ** The checksum *)

Lemma string_of_list_ascii_length (l : list ascii) :
  String.length (string_of_list_ascii l) = length l.
Proof. induction l as [|c l IH]; simpl; congruence. Qed.

Lemma str_take_length (n : nat) :
  forall s : string, (n <= String.length s)%nat -> String.length (str_take n s) = n.
Proof.
  induction n as [|n IH]; intros s Hs; [reflexivity|].
  destruct s as [|c s]; simpl in *; [lia|]. rewrite IH; [reflexivity | lia].
Qed.

Lemma int_to_string_length (number : Z) (padding : nat) :
  (padding <= String.length (ShortUUID.int_to_string number padding))%nat.
Proof.
  unfold ShortUUID.int_to_string.
  rewrite string_of_list_ascii_length, List.length_rev, List.length_app, List.repeat_length.
  lia.
Qed.

Lemma specified_token_length (secret : string) (serialized : bytes) :
  String.length (specified_token secret serialized) = 8%nat.
Proof.
  unfold specified_token, ShortUUID.uuid. apply str_take_length.
  etransitivity; [|apply int_to_string_length]. unfold ShortUUID.pad_length. lia.
Qed.

(** What the view computes is the specified token of the bytes
    [orjson.dumps] wrote, when it wrote any. *)
Lemma generated_checksum_specified (secret_key : string) (data : json) :
  generated_checksum secret_key data
  = match Orjson.dumps data with
    | Some serialized => Some (specified_token secret_key serialized)
    | None => None
    end.
Proof. unfold generated_checksum. destruct (Orjson.dumps data); reflexivity. Qed.

Lemma generated_checksum_length (secret_key : string) (data : json) (token : string) :
  generated_checksum secret_key data = Some token -> String.length token = 8%nat.
Proof.
  rewrite generated_checksum_specified. destruct (Orjson.dumps data); [|discriminate].
  intros H. injection H as <-. apply specified_token_length.
Qed.

Lemma json_is_str_true (j : json) (s : string) :
  json_is_str j s = true <-> j = JStr s.
Proof.
  destruct j; simpl; try (split; [discriminate | intros H; discriminate H]).
  rewrite String.eqb_eq. split; [intros ->; reflexivity | intros H; congruence].
Qed.

(** The library functions the token is made of, on published inputs:
    SHA-256 and SHA-1 of [abc] (FIPS 180), HMAC-SHA256 on the test cases
    1, 2 and 6 of RFC 4231 (the last with a key longer than a block),
    the [uuid5] of the [uuid] module's documentation, and the example of
    shortuuid's own. *)
Example sha256_abc :
  hex_of_bytes (Sha256.digest (str_encode "abc"))
  = "ba7816bf8f01cfea414140de5dae2223b00361a396177a9cb410ff61f20015ad".
Proof. vm_compute. reflexivity. Qed.

Example sha1_abc :
  hex_of_bytes (Sha1.digest (str_encode "abc"))
  = "a9993e364706816aba3e25717850c26c9cd0d89d".
Proof. vm_compute. reflexivity. Qed.

Example hmac_sha256_rfc4231_case_1 :
  Hmac.hexdigest (repeat 11 20) (str_encode "Hi There")
  = "b0344c61d8db38535ca8afceaf0bf12b881dc200c9833da726e9376c2e32cff7".
Proof. vm_compute. reflexivity. Qed.

Example hmac_sha256_rfc4231_case_2 :
  Hmac.hexdigest (str_encode "Jefe") (str_encode "what do ya want for nothing?")
  = "5bdcc146bf60754e6a042426089575c75a003f089d2739839dec58b964ec3843".
Proof. vm_compute. reflexivity. Qed.

Example hmac_sha256_rfc4231_case_6 :
  Hmac.hexdigest (repeat 170 131)
    (str_encode "Test Using Larger Than Block-Size Key - Hash Key First")
  = "60e431591ee0b67f0d8a26aacbf5b77f8e0bc6213728c5140546040f0ee37f54".
Proof. vm_compute. reflexivity. Qed.

Example uuid5_python_org :
  ShortUUID.uuid5 ShortUUID.NAMESPACE_DNS "python.org"
  = 181289448026289383154478846676280385117.
Proof. vm_compute. reflexivity. Qed.

Example shortuuid_example_com :
  ShortUUID.uuid "example.com" = "exu3DTbj2ncsn9tLdLWspw" /\
  ShortUUID.uuid "http://example.com" = "T35fvrnVz6SMSdh9y5hs8c".
Proof. split; vm_compute; reflexivity. Qed.

(** The token depends on the key: one state under two keys. *)
Example token_depends_on_the_key :
  let serialized := str_encode (Sample.q "{|count|:3,|name|:|Terry|}") in
  specified_token "p3pp3r" serialized = "W9TKkYcm" /\
  specified_token "secret" serialized = "7sv6sBTK".
Proof. split; vm_compute; reflexivity. Qed.

Lemma nested_depth (n : nat) : Orjson.depth (nested n) = n.
Proof.
  induction n as [|n IH]; [reflexivity|].
  cbn [nested Orjson.depth map snd list_max fold_right]. rewrite IH. now rewrite Nat.max_0_r.
Qed.

(** C1, counterexample: a state of 300 mappings one inside the other is
    read by the parser and is not serialized by [orjson.dumps], which
    raises a [TypeError] for containers nested that deep.  Whatever
    checksum the request carries, validation neither accepts it nor
    refuses it as not matching, and the endpoint raises the [TypeError]
    in turn. *)
Lemma deep_state_is_not_compared :
  let data := nested 300 in
  let request := Sample.post (request_text data "CJSBaeQS") in
  orjson_loads (Runtime := Sample.runtime) (body request)
  = Some (JDict [("id", JStr "abc"); ("data", data); ("checksum", JStr "CJSBaeQS")]) /\
  Orjson.dumps data = None /\
  ComponentRequest.validate_checksum (R := Sample.runtime)
    (JDict [("id", JStr "abc"); ("data", data); ("checksum", JStr "CJSBaeQS")]) data
  = Raise TypeError /\
  message (R := Sample.runtime) request (Some "test") Sample.initial
  = (Raise TypeError, Sample.initial).
Proof. repeat split; vm_compute; reflexivity. Qed.

(** C1, amended: for a state that [orjson.dumps] serializes, the request's
    checksum is accepted exactly when it is the specified token of the
    serialized bytes under the project's secret, a string of 8
    characters; a checksum that is missing or empty is refused as
    missing, any other one as not matching.  For a state that is not
    serialized, a checksum that is there makes validation raise the
    serializer's [TypeError]. *)
Theorem validate_checksum_iff `{R : Runtime} (entries : list (string * json)) (data : json) :
  let supplied := match assoc "checksum" entries with Some v => v | None => JNull end in
  let validation := ComponentRequest.validate_checksum (JDict entries) data in
  (json_truthy supplied = false ->
   validation = Raise (AssertionError (Text "Missing checksum"))) /\
  (forall serialized : bytes,
     Orjson.dumps data = Some serialized ->
     let token := specified_token SECRET_KEY serialized in
     String.length token = 8%nat /\
     (validation = Return tt <-> supplied = JStr token) /\
     (json_truthy supplied = true -> supplied <> JStr token ->
      validation = Raise (AssertionError (Text "Checksum does not match")))) /\
  (Orjson.dumps data = None -> json_truthy supplied = true ->
   validation = Raise TypeError).
Proof.
  intros supplied validation. subst validation.
  unfold ComponentRequest.validate_checksum. cbn [json_get obind].
  fold supplied. rewrite generated_checksum_specified. clearbody supplied.
  split; [|split].
  - intros ->. reflexivity.
  - intros serialized Hs. rewrite Hs. cbv zeta.
    pose proof (specified_token_length SECRET_KEY serialized) as Hlen.
    set (token := specified_token SECRET_KEY serialized) in *. clearbody token. clear Hs. split; [exact Hlen|]. split.
    + destruct (json_truthy supplied) eqn:Ht; cbn [negb].
      * destruct (json_is_str supplied token) eqn:Hs.
        -- apply json_is_str_true in Hs. tauto.
        -- split; [discriminate|]. intros Heq. apply json_is_str_true in Heq. congruence.
      * split; [discriminate|]. intros Heq. rewrite Heq in Ht.
        destruct token; [discriminate Hlen | discriminate Ht].
    + intros -> Hne. cbn [negb]. destruct (json_is_str supplied token) eqn:Hs; [|reflexivity].
      apply json_is_str_true in Hs. contradiction.
  - intros -> ->. reflexivity.
Qed.

(** A state of two keys signed with another key than the sample
    project's: the token of that key is accepted. *)
Lemma validate_checksum_iff_witness :
  ComponentRequest.validate_checksum (R := Sample.with_key "p3pp3r")
    (JDict [("id", JStr "abc"); ("checksum", JStr "W9TKkYcm")])
    (JDict [("count", JInt 3); ("name", JStr "Terry")])
  = Return tt.
Proof.
  pose proof (validate_checksum_iff (R := Sample.with_key "p3pp3r")
                [("id", JStr "abc"); ("checksum", JStr "W9TKkYcm")]
                (JDict [("count", JInt 3); ("name", JStr "Terry")])) as [_ [H _]].
  destruct (H (str_encode (Sample.q "{|count|:3,|name|:|Terry|}")) eq_refl) as [_ [Hiff _]].
  apply Hiff. vm_compute. reflexivity.
Defined.

Lemma append_assoc (a b c : string) : (a +:+ b) +:+ c = a +:+ (b +:+ c).
Proof.
  induction a as [|x a IH]; [reflexivity|].
  change (String x ((a +:+ b) +:+ c) = String x (a +:+ (b +:+ c))). now rewrite IH.
Qed.

Lemma byte_of_ascii_inj (c d : ascii) : byte_of_ascii c = byte_of_ascii d -> c = d.
Proof.
  unfold byte_of_ascii. intros H. apply N2Z.inj in H.
  rewrite <- (ascii_N_embedding c), <- (ascii_N_embedding d). now rewrite H.
Qed.

Lemma str_encode_inj (s : string) : forall t, str_encode s = str_encode t -> s = t.
Proof.
  induction s as [|c s IH]; intros [|d t] H; simpl in H; try discriminate; [reflexivity|].
  injection H as Hc Hs. apply byte_of_ascii_inj in Hc. apply IH in Hs. congruence.
Qed.

Lemma ascii_of_byte_of (c : ascii) : ascii_of_byte (byte_of_ascii c) = c.
Proof. unfold ascii_of_byte, byte_of_ascii. rewrite N2Z.id. apply ascii_N_embedding. Qed.

Lemma byte_of_ascii_range (c : ascii) : 0 <= byte_of_ascii c < 256.
Proof.
  unfold byte_of_ascii. pose proof (N_ascii_bounded c) as H. lia.
Qed.

Lemma byte_of_ascii_of (x : Z) : 0 <= x < 256 -> byte_of_ascii (ascii_of_byte x) = x.
Proof.
  intros H. unfold ascii_of_byte, byte_of_ascii.
  rewrite N_ascii_embedding by lia. lia.
Qed.

Lemma is_char_byte (c d : ascii) :
  is_char c d = (byte_of_ascii c =? byte_of_ascii d).
Proof.
  unfold is_char. destruct (Ascii.eqb_spec c d) as [->|Hne].
  - now rewrite Z.eqb_refl.
  - symmetry. apply Z.eqb_neq. intros H. apply Hne. now apply byte_of_ascii_inj.
Qed.

Lemma unhex_hex_digit (d : Z) : 0 <= d < 16 -> unhex (hex_digit d) = d.
Proof.
  intros H. unfold unhex, hex_digit.
  destruct (d <? 10) eqn:E.
  - apply Z.ltb_lt in E. rewrite byte_of_ascii_of by lia.
    replace (48 + d <? 58) with true by (symmetry; apply Z.ltb_lt; lia). lia.
  - apply Z.ltb_ge in E. rewrite byte_of_ascii_of by lia.
    replace (87 + d <? 58) with false by (symmetry; apply Z.ltb_ge; lia). lia.
Qed.

Lemma read_quoted_unicode (a b h1 h2 : ascii) (rest : string) :
  read_quoted (String "\" (String "u" (String a (String b (String h1 (String h2 rest))))))
  = match read_quoted rest with
    | Some (t, after) => Some (String (ascii_of_byte (16 * unhex h1 + unhex h2)) t, after)
    | None => None
    end.
Proof. reflexivity. Qed.

Lemma read_quoted_escape (c : ascii) (rest : string) :
  read_quoted (Orjson.escape c +:+ rest) =
  match read_quoted rest with
  | Some (t, after) => Some (String c t, after)
  | None => None
  end.
Proof.
  pose proof (ascii_of_byte_of c) as Hc. pose proof (byte_of_ascii_range c) as Hr.
  unfold Orjson.escape. set (n := byte_of_ascii c) in *.
  repeat match goal with
         | |- context [if n =? ?k then _ else _] =>
             destruct (Z.eqb_spec n k) as [E|?];
             [rewrite E in Hc; rewrite <- Hc; reflexivity|]
         end.
  destruct (Z.ltb_spec n 32) as [Hlt|Hge].
  - change (("\u00" +:+ String (hex_digit (n / 16)) (String (hex_digit (n mod 16)) EmptyString))
            +:+ rest)
      with (String "\" (String "u" (String "0" (String "0"
              (String (hex_digit (n / 16)) (String (hex_digit (n mod 16)) rest)))))).
    rewrite read_quoted_unicode.
    rewrite !unhex_hex_digit
      by (split; [apply Z.div_pos || apply Z.mod_pos_bound; lia
                 | apply Z.div_lt_upper_bound || apply Z.mod_pos_bound; lia]).
    replace (16 * (n / 16) + n mod 16) with n by (rewrite <- Z.div_mod; lia).
    rewrite Hc. reflexivity.
  - change (String c EmptyString +:+ rest) with (String c rest).
    cbn [read_quoted]. rewrite !is_char_byte. fold n.
    change (byte_of_ascii dquote) with 34. change (byte_of_ascii "\") with 92.
    destruct (Z.eqb_spec n 34); [contradiction|].
    destruct (Z.eqb_spec n 92); [contradiction|]. reflexivity.
Qed.

(** A quoted key can be read back: the escapes never hide where it ends. *)
Lemma read_quoted_escape_all (k rest : string) :
  read_quoted (Orjson.escape_all k +:+ String dquote rest) = Some (k, rest).
Proof.
  induction k as [|c k IH]; [reflexivity|].
  change (Orjson.escape_all (String c k))
    with (Orjson.escape c +:+ Orjson.escape_all k).
  rewrite append_assoc, read_quoted_escape, IH. reflexivity.
Qed.

Lemma append_empty (p : string) : p +:+ EmptyString = p.
Proof.
  induction p as [|c p IH]; [reflexivity|].
  change (String c (p +:+ EmptyString) = String c p). now rewrite IH.
Qed.

Lemma join_head (sep p : string) (rest : list string) :
  exists tail, Orjson.join sep (p :: rest) = p +:+ tail.
Proof.
  destruct rest as [|p' rest]; cbn [Orjson.join].
  - exists EmptyString. now rewrite append_empty.
  - eauto.
Qed.

Lemma dumps_str_dict_head (k : string) (v : json) (r : list (string * json)) :
  exists tail,
    Orjson.dumps_str (JDict ((k, v) :: r))
    = String "{" (String dquote (Orjson.escape_all k +:+ String dquote tail)).
Proof.
  cbn [Orjson.dumps_str map fst snd].
  destruct (join_head ","
              (Orjson.quoted k +:+ ":" +:+ Orjson.dumps_str v)
              (map (fun kv => Orjson.quoted (fst kv) +:+ ":" +:+ Orjson.dumps_str (snd kv)) r))
    as [tail ->].
  unfold Orjson.quoted. rewrite !append_assoc.
  exists (":" +:+ Orjson.dumps_str v +:+ tail +:+ "}").
  change (String "{" (String dquote
            ((Orjson.escape_all k +:+ String dquote EmptyString)
             +:+ (":" +:+ Orjson.dumps_str v +:+ tail +:+ "}")))
          = String "{" (String dquote
              (Orjson.escape_all k +:+ String dquote EmptyString
               +:+ (":" +:+ Orjson.dumps_str v +:+ tail +:+ "}")))).
  now rewrite append_assoc.
Qed.

(** C2, counterexample: the same two entries in two orders make equal
    mappings, and the view computes different tokens for them. *)
Lemma reordered_keys_change_the_checksum :
  json_eqb (JDict [("a", JInt 1); ("b", JInt 2)]) (JDict [("b", JInt 2); ("a", JInt 1)])
  = true /\
  generated_checksum "secret" (JDict [("a", JInt 1); ("b", JInt 2)]) = Some "mzg2oZVf" /\
  generated_checksum "secret" (JDict [("b", JInt 2); ("a", JInt 1)]) = Some "QG7vXZa9" /\
  generated_checksum "secret" (JDict [("a", JInt 1); ("b", JInt 2)])
  <> generated_checksum "secret" (JDict [("b", JInt 2); ("a", JInt 1)]).
Proof. repeat split; try (vm_compute; reflexivity). vm_compute. discriminate. Qed.

(** C2, amended: for the same secret, two state mappings that serialize
    to the same bytes, as mappings with the same entries in the same
    order do, get the same token.  The serialization writes the keys in
    the mapping's own order and not in a canonical one: two mappings whose
    first keys differ never serialize to the same bytes. *)
Theorem generated_checksum_key_order (secret_key : string) (d1 d2 : json) :
  (Orjson.dumps d1 = Orjson.dumps d2 ->
   generated_checksum secret_key d1 = generated_checksum secret_key d2) /\
  (forall k1 v1 r1 k2 v2 r2,
     d1 = JDict ((k1, v1) :: r1) -> d2 = JDict ((k2, v2) :: r2) -> k1 <> k2 ->
     forall serialized : bytes,
       Orjson.dumps d1 = Some serialized -> Orjson.dumps d2 <> Some serialized).
Proof.
  split.
  - intros H. unfold generated_checksum. now rewrite H.
  - intros k1 v1 r1 k2 v2 r2 -> -> Hk serialized H1 H2. apply Hk.
    unfold Orjson.dumps in H1, H2.
    destruct (_ || _) in H1; [discriminate|].
    destruct (_ || _) in H2; [discriminate|].
    assert (H : str_encode (Orjson.dumps_str (JDict ((k1, v1) :: r1)))
                = str_encode (Orjson.dumps_str (JDict ((k2, v2) :: r2)))) by congruence.
    clear H1 H2. apply str_encode_inj in H.
    destruct (dumps_str_dict_head k1 v1 r1) as [t1 E1].
    destruct (dumps_str_dict_head k2 v2 r2) as [t2 E2].
    rewrite E1, E2 in H. injection H as H.
    apply (f_equal read_quoted) in H. rewrite !read_quoted_escape_all in H. congruence.
Qed.

Lemma generated_checksum_key_order_witness :
  Orjson.dumps (JDict [("a", JInt 1); ("b", JInt 2)])
  <> Orjson.dumps (JDict [("b", JInt 2); ("a", JInt 1)]).
Proof.
  intros Heq.
  apply (proj2 (generated_checksum_key_order "secret"
                  (JDict [("a", JInt 1); ("b", JInt 2)])
                  (JDict [("b", JInt 2); ("a", JInt 1)]))
               "a" (JInt 1) [("b", JInt 2)] "b" (JInt 2) [("a", JInt 1)]
               eq_refl eq_refl ltac:(discriminate)
               (str_encode (Orjson.dumps_str (JDict [("a", JInt 1); ("b", JInt 2)])))
               eq_refl).
  rewrite <- Heq. reflexivity.
Defined.

(** ** The request envelope *)

Lemma validate_checksum_ok `{R : Runtime} (entries : list (string * json)) (data : json)
    (token : string) :
  generated_checksum SECRET_KEY data = Some token ->
  match assoc "checksum" entries with Some v => v | None => JNull end = JStr token ->
  ComponentRequest.validate_checksum (JDict entries) data = Return tt.
Proof.
  intros Htoken H. unfold ComponentRequest.validate_checksum. cbn [json_get obind].
  rewrite H, Htoken.
  pose proof (generated_checksum_length SECRET_KEY data token Htoken) as Hlen.
  cbn [json_truthy json_is_str]. rewrite String.eqb_refl.
  destruct token; [discriminate Hlen | reflexivity].
Qed.

(** C8, counterexample: a body that is a list of two numbers is neither
    empty nor absent, and it has no [data] field; the constructor does
    not fail with a validation error but with the [AttributeError] of
    [body.get], which the endpoint raises in turn. *)
Lemma list_body_is_no_validation_error :
  let request := Sample.post "[1, 2]" in
  orjson_loads (Runtime := Sample.runtime) (body request) = Some (JList [JInt 1; JInt 2]) /\
  ComponentRequest.__init__ (R := Sample.runtime) request = Raise AttributeError /\
  message (R := Sample.runtime) request (Some "test") Sample.initial
  = (Raise AttributeError, Sample.initial).
Proof. repeat split; vm_compute; reflexivity. Qed.

(** C8, amended: for a body that parses, [ComponentRequest] refuses an
    empty or null document, a mapping without [data] (or with a null one)
    and a mapping whose [id] is missing or empty, each with its own
    assertion message; a document that is not empty and is no mapping
    makes it raise [AttributeError].  Any other [data] that is
    serialized, the empty mapping included, is accepted once the checksum
    is its token, and a missing [actionQueue] becomes the empty list. *)
Theorem component_request_validation `{R : Runtime} (request : HttpRequest)
    (parsed : json) :
  orjson_loads (body request) = Some parsed ->
  (json_truthy parsed = false ->
   ComponentRequest.__init__ request = Raise (AssertionError (Text "Invalid JSON body"))) /\
  (json_truthy parsed = true -> (forall entries, parsed <> JDict entries) ->
   ComponentRequest.__init__ request = Raise AttributeError) /\
  (forall entries : list (string * json),
     parsed = JDict entries -> json_truthy parsed = true ->
     let field key default :=
       match assoc key entries with Some v => v | None => default end in
     (field "data" JNull = JNull ->
      ComponentRequest.__init__ request = Raise (AssertionError (Text "Missing data"))) /\
     (field "data" JNull <> JNull -> json_truthy (field "id" JNull) = false ->
      ComponentRequest.__init__ request
      = Raise (AssertionError (Text "Missing component id"))) /\
     (forall token : string,
        field "data" JNull <> JNull -> json_truthy (field "id" JNull) = true ->
        generated_checksum SECRET_KEY (field "data" JNull) = Some token ->
        field "checksum" JNull = JStr token ->
        ComponentRequest.__init__ request
        = Return {| ComponentRequest.body := parsed;
                    ComponentRequest.data := field "data" JNull;
                    ComponentRequest.id := field "id" JNull;
                    ComponentRequest.action_queue := field "actionQueue" (JList []) |}) /\
     generated_checksum SECRET_KEY (JDict []) <> None).
Proof.
  intros Hload. unfold ComponentRequest.__init__. rewrite Hload. split; [|split].
  - intros ->. reflexivity.
  - intros Ht Hno. rewrite Ht. cbn [negb].
    destruct parsed; try reflexivity. exfalso. now apply (Hno entries).
  - intros entries -> Ht. rewrite Ht. cbn [negb json_get obind].
    pose proof (validate_checksum_ok entries
                  (match assoc "data" entries with Some v => v | None => JNull end)) as Hv.
    set (d := match assoc "data" entries with Some v => v | None => JNull end) in *.
    set (i := match assoc "id" entries with Some v => v | None => JNull end).
    set (c := match assoc "checksum" entries with Some v => v | None => JNull end) in *.
    cbv zeta. split; [|split; [|split]].
    + intros ->. reflexivity.
    + intros Hd Hid. destruct d; try contradiction;
        cbn [json_is_none]; rewrite Hid; reflexivity.
    + intros token Hd Hid Htoken Hsum. specialize (Hv token Htoken Hsum).
      destruct d; try contradiction;
        cbn [json_is_none]; rewrite Hid; cbn [negb]; rewrite Hv; reflexivity.
    + rewrite generated_checksum_specified. discriminate.
Qed.

(** A request whose data is the empty mapping and that has no action queue. *)
Lemma component_request_validation_witness :
  ComponentRequest.__init__ (R := Sample.runtime)
    (Sample.post (Sample.q "{|id|:|abc|,|data|:{},|checksum|:|CJSBaeQS|}"))
  = Return {| ComponentRequest.body :=
                JDict [("id", JStr "abc"); ("data", JDict []); ("checksum", JStr "CJSBaeQS")];
              ComponentRequest.data := JDict [];
              ComponentRequest.id := JStr "abc";
              ComponentRequest.action_queue := JList [] |}.
Proof.
  refine (proj1 (proj2 (proj2 (proj2 (proj2 (component_request_validation
            (R := Sample.runtime)
            (Sample.post (Sample.q "{|id|:|abc|,|data|:{},|checksum|:|CJSBaeQS|}"))
            (JDict [("id", JStr "abc"); ("data", JDict []); ("checksum", JStr "CJSBaeQS")])
            _)) _ eq_refl eq_refl))) "CJSBaeQS" _ _ _ _).
  - vm_compute. reflexivity.
  - discriminate.
  - reflexivity.
  - vm_compute. reflexivity.
  - reflexivity.
Defined.

(** ** Bodies that do not parse *)

(** C9, counterexample: a request for the URL without a component name
    is answered with the missing-name message, whether or not its body
    parses. *)
Lemma unnamed_component_is_reported_first :
  orjson_loads (Runtime := Sample.runtime) (body (Sample.post "not json")) = None /\
  message (R := Sample.runtime) (Sample.post "not json") None Sample.initial
  = (Return (JsonResponse (ErrorRes (Text "Missing component name in url"))),
     Sample.initial).
Proof. split; vm_compute; reflexivity. Qed.

(** C9, amended: a POST that passes the CSRF check, names a component and
    carries a body that does not parse is answered with the error payload
    [Body could not be parsed], and the store is left as it was: no
    component is created or changed and no action is applied. *)
Theorem unparseable_body_is_reported `{R : Runtime} (request : HttpRequest)
    (component_name : string) (h : heap) :
  method request = "POST" ->
  csrf_ok request = true ->
  component_name <> EmptyString ->
  orjson_loads (body request) = None ->
  message request (Some component_name) h
  = (Return (JsonResponse (ErrorRes (Text "Body could not be parsed"))), h).
Proof.
  intros Hm Hc Hn Hb.
  unfold message, handle_error, csrf_protect, require_POST, message_body.
  rewrite Hc, Hm. cbn [String.eqb].
  destruct component_name as [|c s]; [contradiction|].
  unfold bind, lift, ComponentRequest.__init__. rewrite Hb. reflexivity.
Qed.

Lemma unparseable_body_is_reported_witness :
  message (R := Sample.runtime) (Sample.post "{not json") (Some "test") Sample.initial
  = (Return (JsonResponse (ErrorRes (Text "Body could not be parsed"))), Sample.initial).
Proof.
  apply (unparseable_body_is_reported (R := Sample.runtime)
           (Sample.post "{not json") "test" Sample.initial);
    [reflexivity | reflexivity | discriminate | vm_compute; reflexivity].
Defined.

(** ** Reading and writing the store *)

Lemma py_get_entry `{R : Runtime} (h : heap) (o : value) (entries : list (string * value))
    (key : string) :
  deref h o = Some (ODict entries) ->
  py_get o key (ret VNone) h = (Return (entry entries key), h).
Proof.
  intros H. unfold py_get, entry. rewrite H. destruct (assoc key entries); reflexivity.
Qed.

Lemma py_get_found `{R : Runtime} (h : heap) (o x : value)
    (entries : list (string * value)) (key : string) (default : M value) :
  deref h o = Some (ODict entries) -> assoc key entries = Some x ->
  py_get o key default h = (Return x, h).
Proof. intros H E. unfold py_get. rewrite H, E. reflexivity. Qed.

Lemma py_get_default `{R : Runtime} (h : heap) (o : value)
    (entries : list (string * value)) (key : string) (default : M value) :
  deref h o = Some (ODict entries) -> assoc key entries = None ->
  py_get o key default h = default h.
Proof. intros H E. unfold py_get. rewrite H, E. reflexivity. Qed.

Lemma py_getattr_instance `{R : Runtime} (h : heap) (l : loc) (cls : pyclass)
    (attrs : list (string * value)) (name : string) :
  h !! l = Some (OInstance cls attrs) ->
  py_getattr h (VRef l) name = assoc name attrs.
Proof. intros H. unfold py_getattr. simpl. rewrite H. reflexivity. Qed.

Lemma instance_is_no_dict `{R : Runtime} (h : heap) (l : loc) (cls : pyclass)
    (attrs : list (string * value)) :
  h !! l = Some (OInstance cls attrs) -> isinstance_dict h (VRef l) = false.
Proof. intros H. unfold isinstance_dict. simpl. rewrite H. reflexivity. Qed.






Lemma mirrored_more (h more : heap) (path : list string) :
  forall d, mirrored h d path = true -> mirrored (h ++ more) d path = true.
Proof.
  induction path as [|part rest IH]; intros d; cbn [mirrored]; [trivial|].
  destruct d as [| | | |l| |]; cbn [deref]; try discriminate.
  destruct (h !! l) as [[entries| |]|] eqn:Hl; try discriminate.
  rewrite (lookup_app_l_Some h more l _ Hl).
  destruct (assoc part entries); [apply IH | trivial].
Qed.

(** An instance is such a container, for the names it has not. *)
Lemma instance_lacks `{R : Runtime} (h : heap) (l : loc) (cls : pyclass)
    (attrs : list (string * value)) (names : list string) :
  h !! l = Some (OInstance cls attrs) ->
  Forall (fun name => assoc name attrs = None) names ->
  lacks h (VRef l) names.
Proof.
  intros Hl Hnames more.
  pose proof (lookup_app_l_Some h more l _ Hl) as Hl'. split.
  - unfold isinstance_dict. cbn [deref]. now rewrite Hl'.
  - eapply Forall_impl; [exact Hnames|]. intros name Hname. cbn beta in *.
    unfold py_getattr. cbn [deref]. now rewrite Hl'.
Qed.



(** ** Actions that change nothing *)

(** C10: a [syncInput] whose payload has no [name] or no [value], or has
    [None] for either, leaves the store as it is, and with it the
    component and the snapshot; so does the turn of the loop that
    processes the action. *)
Theorem sync_input_without_value `{R : Runtime} (h : heap) (component : loc)
    (payload data : value) (entries : list (string * value)) :
  deref h payload = Some (ODict entries) ->
  entry entries "name" = VNone \/ entry entries "value" = VNone ->
  _set_property_from_payload component payload data h = (Return tt, h) /\
  (forall (component_id : json) (component_name : string) (action : value)
          (fields : list (string * value)),
     deref h action = Some (ODict fields) ->
     assoc "type" fields = Some (VStr "syncInput") ->
     assoc "payload" fields = Some payload ->
     apply_action component_id component_name (component, data) action h
     = (Return (component, data), h)).
Proof.
  intros Hp Hnone.
  assert (Hset : _set_property_from_payload component payload data h = (Return tt, h)).
  { unfold _set_property_from_payload, bind.
    rewrite !(py_get_entry h payload entries _ Hp).
    destruct Hnone as [-> | ->]; [reflexivity|].
    destruct (entry entries "name"); reflexivity. }
  split; [exact Hset|].
  intros component_id component_name action fields Ha Htype Hpayload.
  unfold apply_action, bind.
  rewrite (py_get_found h action _ fields "type" _ Ha Htype).
  rewrite (py_get_found h action _ fields "payload" _ Ha Hpayload).
  cbn [is_str String.eqb Ascii.eqb Bool.eqb andb]. rewrite Hset. reflexivity.
Qed.

(** A payload that names an existing property and carries [null]. *)
Lemma sync_input_without_value_witness :
  let h := Sample.store_with
             [ODict [("name", VStr "count"); ("value", VNone)]; ODict [("count", VInt 0)]] in
  _set_property_from_payload (R := Sample.runtime) Sample.component (VRef 3%nat) (VRef 4%nat) h
  = (Return tt, h).
Proof.
  intros h.
  exact (proj1 (sync_input_without_value (R := Sample.runtime) h Sample.component
                  (VRef 3%nat) (VRef 4%nat) [("name", VStr "count"); ("value", VNone)]
                  eq_refl (or_intror eq_refl))).
Defined.




(** What the walk leaves in the store on three paths with a segment that
    is not found: one on the component itself, one on its author with a
    snapshot that has no author, one on the number that [count] holds. *)
Example paths_that_are_skipped :
  let payload name := ODict [("name", VStr name); ("value", VStr "x")] in
  let run name :=
    _set_property_from_payload (R := Sample.runtime) Sample.component (VRef 3%nat)
      (VRef 4%nat) (Sample.store_with [payload name; ODict [("count", VInt 0)]]) in
  run "title.text"
  = (Return tt, Sample.store_with [payload "title.text"; ODict [("count", VInt 0)]]) /\
  run "author.missing"
  = (Return tt, Sample.store_with [payload "author.missing"; ODict [("count", VInt 0)];
                                   ODict []]) /\
  run "count.missing"
  = (Return tt, Sample.store_with [payload "count.missing"; ODict [("count", VInt 0)]]).
Proof. repeat split. Qed.

(** ** Nested properties *)

(** C4, the failing input: the snapshot has no [author] yet.  The write
    reaches the component, but on the snapshot's side it goes to the
    empty dict that [get] handed out as a default, which the snapshot
    does not hold: the snapshot stays empty. *)
Theorem nested_write_misses_absent_mapping :
  let h := Sample.store_with
             [ODict [("name", VStr "author.name"); ("value", VStr "Neil Gaiman")];
              ODict []] in
  let after :=
    [OInstance UnicornField [("name", VStr "Neil Gaiman")]; ODict [];
     Sample.test_view Sample.component;
     ODict [("name", VStr "author.name"); ("value", VStr "Neil Gaiman")];
     ODict [];
     ODict [("name", VStr "Neil Gaiman")]] in
  _set_property_from_payload (R := Sample.runtime) Sample.component (VRef 3%nat) (VRef 4%nat) h
  = (Return tt, after) /\
  py_getattr (R := Sample.runtime) after (VRef Sample.author) "name"
  = Some (VStr "Neil Gaiman") /\
  after !! 4%nat = Some (ODict []).
Proof. repeat split; reflexivity. Qed.

(** With the [author] mapping in the snapshot, as the server sends it,
    the same action updates the component and the snapshot alike. *)
Example nested_write_mirrors_present_mapping :
  let h := Sample.store_with
             [ODict [("name", VStr "author.name"); ("value", VStr "Neil Gaiman")];
              ODict [("author", VRef 5%nat)];
              ODict [("name", VStr "Neil")]] in
  let after :=
    [OInstance UnicornField [("name", VStr "Neil Gaiman")]; ODict [];
     Sample.test_view Sample.component;
     ODict [("name", VStr "author.name"); ("value", VStr "Neil Gaiman")];
     ODict [("author", VRef 5%nat)];
     ODict [("name", VStr "Neil Gaiman")]] in
  _set_property_from_payload (R := Sample.runtime) Sample.component (VRef 3%nat) (VRef 4%nat) h
  = (Return tt, after).
Proof. reflexivity. Qed.

(** ** Reset *)

(** C6: a [callMethod] named [reset] or [reset()] asks [UnicornView.create]
    for the component of the same id and name with [skip_cache] set, and
    the loop goes on with that instance and with a new snapshot dict that
    holds exactly its public attributes; neither the component nor the
    snapshot of the turns before plays any part. *)
Theorem reset_replaces_the_snapshot `{R : Runtime} (h h1 : heap) (component_id : json)
    (component_name : string) (st : loop_state) (action payload : value)
    (fields entries : list (string * value)) (name : string) (fresh : loc) :
  deref h action = Some (ODict fields) ->
  assoc "type" fields = Some (VStr "callMethod") ->
  assoc "payload" fields = Some payload ->
  deref h payload = Some (ODict entries) ->
  assoc "name" entries = Some (VStr name) ->
  name = "reset" \/ name = "reset()" ->
  UnicornView_create component_id component_name true h = (Return fresh, h1) ->
  apply_action component_id component_name st action h
  = (Return (fresh, VRef (length h1)), h1 ++ [ODict (public_attributes h1 fresh)]).
Proof.
  intros Ha Htype Hpayload Hp Hname Hreset Hcreate.
  destruct st as [component data]. unfold apply_action, bind, read.
  rewrite (py_get_found h action _ fields "type" _ Ha Htype).
  rewrite (py_get_found h action _ fields "payload" _ Ha Hpayload).
  cbn [is_str String.eqb Ascii.eqb Bool.eqb andb].
  rewrite (py_get_found h payload _ entries "name" _ Hp Hname).
  assert (Hor : String.eqb name "reset" || String.eqb name "reset()" = true).
  { destruct Hreset as [-> | ->]; reflexivity. }
  assert (Ht : truthy h (VStr name) = true).
  { destruct Hreset as [-> | ->]; reflexivity. }
  rewrite Ht, Hor. cbn [negb]. rewrite Hcreate.
  unfold _attributes, bind, read, alloc. reflexivity.
Qed.

(** A reset after the snapshot's counter had reached 7. *)
Lemma reset_replaces_the_snapshot_witness :
  let h := Sample.store_with
             [ODict [("name", VStr "reset")];
              ODict [("type", VStr "callMethod"); ("payload", VRef 3%nat)];
              ODict [("count", VInt 7)]] in
  let h1 :=
    [OInstance UnicornField [("name", VStr "Neil")];
     ODict [("abc", VRef 6%nat)];
     Sample.test_view Sample.component;
     ODict [("name", VStr "reset")];
     ODict [("type", VStr "callMethod"); ("payload", VRef 3%nat)];
     ODict [("count", VInt 7)];
     Sample.test_view 6%nat] in
  apply_action (R := Sample.runtime) (JStr "abc") "test"
    (Sample.component, VRef 5%nat) (VRef 4%nat) h
  = (Return (6%nat, VRef 7%nat),
     h1 ++ [ODict [("author", VRef Sample.author); ("count", VInt 0)]]).
Proof.
  intros h h1.
  exact (reset_replaces_the_snapshot (R := Sample.runtime) h h1 (JStr "abc") "test"
           (Sample.component, VRef 5%nat) (VRef 4%nat) (VRef 3%nat)
           [("type", VStr "callMethod"); ("payload", VRef 3%nat)]
           [("name", VStr "reset")] "reset" 6%nat
           eq_refl eq_refl eq_refl eq_refl eq_refl (or_introl eq_refl) eq_refl).
Defined.

(** ** Unknown actions *)

Lemma run_actions_app `{R : Runtime} (component_id : json) (component_name : string)
    (before rest : list value) :
  forall (st : loop_state) (h : heap),
    run_actions component_id component_name (before ++ rest) st h
    = match run_actions component_id component_name before st h with
      | (Return st', h') => run_actions component_id component_name rest st' h'
      | (Raise e, h') => (Raise e, h')
      end.
Proof.
  induction before as [|action before IH]; intros st h; [reflexivity|].
  cbn [app run_actions]. unfold bind.
  destruct (apply_action component_id component_name st action h) as [[st'|e] h'];
    [apply IH | reflexivity].
Qed.

(** An action whose type is neither of the two raises at once; the only
    thing that may have been built is the empty dict standing in for a
    missing payload. *)
Lemma apply_action_unknown `{R : Runtime} (component_id : json) (component_name : string)
    (st : loop_state) (action : value) (fields : list (string * value)) (h : heap) :
  deref h action = Some (ODict fields) ->
  is_str (entry fields "type") "syncInput" = false ->
  is_str (entry fields "type") "callMethod" = false ->
  apply_action component_id component_name st action h
  = (Raise (UnicornViewError (Unknown_action_type (entry fields "type"))),
     match assoc "payload" fields with Some _ => h | None => h ++ [ODict []] end).
Proof.
  intros Ha Hs Hc. destruct st as [component data]. unfold apply_action, bind.
  rewrite (py_get_entry h action fields "type" Ha).
  unfold py_get. rewrite Ha.
  destruct (assoc "payload" fields); unfold new_dict, alloc; rewrite Hs, Hc; reflexivity.
Qed.

(** C7, counterexample: the first action is a [callMethod] without a
    name, the second has an unknown type.  The reply reports the missing
    name; the unknown type is never looked at. *)
Lemma earlier_failure_hides_unknown_action :
  message (R := Sample.runtime)
    (Sample.post (Sample.q
       "{|id|:|abc|,|data|:{|count|:0},|checksum|:|RwoC5c6N|,|actionQueue|:[{|type|:|callMethod|,|payload|:{}},{|type|:|bogus|}]}"))
    (Some "test") Sample.initial
  = (Return (JsonResponse (ErrorRes (Text "Missing 'name' key for callMethod"))),
     [OInstance UnicornField [("name", VStr "Neil")];
      ODict [("abc", VRef 7%nat)]; ODict [("count", VInt 0)];
      ODict [];
      ODict [("type", VStr "callMethod"); ("payload", VRef 3%nat)];
      ODict [("type", VStr "bogus")]; OList [VRef 4%nat; VRef 5%nat];
      Sample.test_view 7%nat]).
Proof. vm_compute. reflexivity. Qed.

(** C7, amended: when the actions before an action of unknown type have
    been processed without raising, the view raises the unknown-action
    error at that action and replies with the error payload; the store is
    the one those earlier actions left (with at most an empty dict added
    for a missing payload), so they keep their full effect, and none of
    the later actions is applied. *)
Theorem unknown_action_aborts `{R : Runtime} (request : HttpRequest)
    (component_name : string) (component_request : ComponentRequest.t)
    (h h1 h2 h3 h4 h5 : heap) (data queue : value) (component : loc)
    (items fields : list (string * value)) (before after : list value)
    (action : value) (st : loop_state) :
  method request = "POST" ->
  csrf_ok request = true ->
  component_name <> EmptyString ->
  ComponentRequest.__init__ request = Return component_request ->
  reify (ComponentRequest.data component_request) h = (Return data, h1) ->
  reify (ComponentRequest.action_queue component_request) h1 = (Return queue, h2) ->
  UnicornView_create (ComponentRequest.id component_request) component_name false h2
  = (Return component, h3) ->
  py_items data h3 = (Return items, h3) ->
  for_each items (fun kv =>
    _set_property_from_data recursion_limit (VRef component) (fst kv) (snd kv)) h3
  = (Return tt, h4) ->
  py_iter queue h4 = (Return (before ++ action :: after), h4) ->
  run_actions (ComponentRequest.id component_request) component_name before
    (component, data) h4 = (Return st, h5) ->
  deref h5 action = Some (ODict fields) ->
  is_str (entry fields "type") "syncInput" = false ->
  is_str (entry fields "type") "callMethod" = false ->
  message request (Some component_name) h
  = (Return (JsonResponse (ErrorRes (Unknown_action_type (entry fields "type")))),
     match assoc "payload" fields with Some _ => h5 | None => h5 ++ [ODict []] end).
Proof.
  intros Hm Hc Hn Hinit Hdata Hqueue Hcreate Hitems Hhydrate Hiter Hbefore Ha Hs Hcm.
  unfold message, handle_error, csrf_protect, require_POST, message_body.
  rewrite Hc, Hm. change (String.eqb "POST" "POST") with true. cbv beta iota.
  destruct component_name as [|c s]; [contradiction|].
  unfold bind at 1. unfold lift. rewrite Hinit. cbv beta iota.
  unfold bind at 1. rewrite Hdata. cbv beta iota.
  unfold bind at 1. rewrite Hqueue. cbv beta iota zeta.
  unfold bind at 1. rewrite Hcreate. cbv beta iota.
  unfold bind at 1. rewrite Hitems. cbv beta iota.
  unfold bind at 1. rewrite Hhydrate. cbv beta iota.
  unfold bind at 1. rewrite Hiter. cbv beta iota.
  unfold bind at 1. rewrite run_actions_app, Hbefore.
  cbn [run_actions]. unfold bind at 1.
  rewrite (apply_action_unknown _ _ st action fields h5 Ha Hs Hcm). reflexivity.
Qed.

(** An increment, an action of type [bogus], another increment: the
    counter is at 1 in the store the view ends in. *)
Lemma unknown_action_aborts_witness :
  message (R := Sample.runtime)
    (Sample.post (Sample.q
       "{|id|:|abc|,|data|:{|count|:0},|checksum|:|RwoC5c6N|,|actionQueue|:[{|type|:|callMethod|,|payload|:{|name|:|increment|}},{|type|:|bogus|},{|type|:|callMethod|,|payload|:{|name|:|increment|}}]}"))
    (Some "test") Sample.initial
  = (Return (JsonResponse (ErrorRes (Unknown_action_type (VStr "bogus")))),
     [OInstance UnicornField [("name", VStr "Neil")];
      ODict [("abc", VRef 9%nat)];
      ODict [("count", VInt 1); ("author", VRef 0%nat)];
      ODict [("name", VStr "increment")];
      ODict [("type", VStr "callMethod"); ("payload", VRef 3%nat)];
      ODict [("type", VStr "bogus")]; ODict [("name", VStr "increment")];
      ODict [("type", VStr "callMethod"); ("payload", VRef 6%nat)];
      OList [VRef 4%nat; VRef 5%nat; VRef 7%nat];
      OInstance UnicornView
        [("author", VRef 0%nat); ("count", VInt 1);
         ("increment", VMethod 9%nat "increment")];
      ODict [("author", VRef 0%nat); ("count", VInt 1)];
      ODict []]).
Proof.
  eapply (unknown_action_aborts (R := Sample.runtime) _ "test" _ Sample.initial
            _ _ _ _
            [OInstance UnicornField [("name", VStr "Neil")];
             ODict [("abc", VRef 9%nat)];
             ODict [("count", VInt 1); ("author", VRef 0%nat)];
             ODict [("name", VStr "increment")];
             ODict [("type", VStr "callMethod"); ("payload", VRef 3%nat)];
             ODict [("type", VStr "bogus")]; ODict [("name", VStr "increment")];
             ODict [("type", VStr "callMethod"); ("payload", VRef 6%nat)];
             OList [VRef 4%nat; VRef 5%nat; VRef 7%nat];
             OInstance UnicornView
               [("author", VRef 0%nat); ("count", VInt 1);
                ("increment", VMethod 9%nat "increment")];
             ODict [("author", VRef 0%nat); ("count", VInt 1)]]
            _ _ _ _ [("type", VStr "bogus")]
            [VRef 4%nat] [VRef 7%nat] (VRef 5%nat)).
  - reflexivity.
  - reflexivity.
  - discriminate.
  - vm_compute. reflexivity.
  - vm_compute. reflexivity.
  - vm_compute. reflexivity.
  - vm_compute. reflexivity.
  - vm_compute. reflexivity.
  - vm_compute. reflexivity.
  - vm_compute. reflexivity.
  - vm_compute. reflexivity.
  - reflexivity.
  - reflexivity.
  - reflexivity.
Defined.

(** * Further properties of the view module *)

(** ** Parsing call expressions *)

Lemma str_contains_append (sep : ascii) (a b : string) :
  str_contains sep (a +:+ b) = str_contains sep a || str_contains sep b.
Proof.
  induction a as [|c a IH]; [reflexivity|].
  change (str_contains sep (String c (a +:+ b))
          = str_contains sep (String c a) || str_contains sep b).
  cbn [str_contains]. rewrite IH. apply orb_assoc.
Qed.

Lemma str_last_append (a : string) (c : ascii) :
  str_last (a +:+ String c EmptyString) = Some c.
Proof.
  induction a as [|x a IH]; [reflexivity|].
  change (str_last (String x (a +:+ String c EmptyString)) = Some c).
  destruct a as [|y a]; [reflexivity|]. exact IH.
Qed.

Lemma drop_last_append (a : string) (c : ascii) :
  drop_last (a +:+ String c EmptyString) = a.
Proof.
  induction a as [|x a IH]; [reflexivity|].
  change (drop_last (String x (a +:+ String c EmptyString)) = String x a).
  destruct a as [|y a]; [reflexivity|].
  change (String x (drop_last (String y a +:+ String c EmptyString)) = String x (String y a)).
  now rewrite IH.
Qed.

Lemma is_char_same (c : ascii) : is_char c c = true.
Proof. apply Ascii.eqb_refl. Qed.

Lemma from_first_append (sep : ascii) (a r : string) :
  str_contains sep a = false -> from_first sep (a +:+ String sep r) = String sep r.
Proof.
  induction a as [|c a IH]; intros H.
  - change (from_first sep (String sep r) = String sep r).
    cbn [from_first]. now rewrite is_char_same.
  - cbn [str_contains] in H. apply orb_false_elim in H as [Hc Ha].
    change (from_first sep (String c (a +:+ String sep r)) = String sep r).
    cbn [from_first]. rewrite Hc. now apply IH.
Qed.

Lemma before_first_append (sep : ascii) (a r : string) :
  str_contains sep a = false -> before_first sep (a +:+ String sep r) = a.
Proof.
  induction a as [|c a IH]; intros H.
  - change (before_first sep (String sep r) = EmptyString).
    cbn [before_first]. now rewrite is_char_same.
  - cbn [str_contains] in H. apply orb_false_elim in H as [Hc Ha].
    change (before_first sep (String c (a +:+ String sep r)) = String c a).
    cbn [before_first]. rewrite Hc, IH by exact Ha. reflexivity.
Qed.

Lemma split_without (sep : ascii) (a : string) :
  str_contains sep a = false -> split sep a = [a].
Proof.
  induction a as [|c a IH]; intros H; [reflexivity|].
  cbn [str_contains] in H. apply orb_false_elim in H as [Hc Ha].
  cbn [split]. rewrite Hc, IH by exact Ha. reflexivity.
Qed.

Lemma split_append (sep : ascii) (a r : string) :
  str_contains sep a = false ->
  split sep (a +:+ String sep r) = a :: split sep r.
Proof.
  induction a as [|c a IH]; intros H.
  - change (split sep (String sep r) = EmptyString :: split sep r).
    cbn [split]. now rewrite is_char_same.
  - cbn [str_contains] in H. apply orb_false_elim in H as [Hc Ha].
    change (split sep (String c (a +:+ String sep r)) = String c a :: split sep r).
    cbn [split]. rewrite Hc, IH by exact Ha. reflexivity.
Qed.

Lemma split_join (sep : ascii) (parts : list string) :
  parts <> [] ->
  Forall (fun part => str_contains sep part = false) parts ->
  split sep (Orjson.join (String sep EmptyString) parts) = parts.
Proof.
  intros Hne Hall. induction Hall as [|p rest Hp Hrest IH]; [contradiction|].
  destruct rest as [|p' rest].
  - cbn [Orjson.join]. now apply split_without.
  - change (split sep (p +:+ String sep (Orjson.join (String sep EmptyString) (p' :: rest)))
            = p :: p' :: rest).
    rewrite split_append by exact Hp. f_equal. apply IH. discriminate.
Qed.

Lemma split_length (sep : ascii) (s : string) :
  length (split sep s) = S (count_char sep s).
Proof.
  induction s as [|c s IH]; [reflexivity|].
  cbn [split count_char]. destruct (is_char c sep).
  - cbn [length]. now rewrite IH.
  - destruct (split sep s) as [|p ps]; [discriminate IH | exact IH].
Qed.

Lemma handle_arg_quoted (argument : string) :
  _handle_arg (quote_argument argument) = VStr argument.
Proof.
  unfold _handle_arg, quote_argument, startswith, endswith.
  change (str_last (String "'" (argument +:+ "'")))
    with (str_last (String "'" (argument +:+ String "'" EmptyString))).
  assert (Hlast : str_last (String "'" (argument +:+ String "'" EmptyString)) = Some "'"%char).
  { destruct argument as [|c a]; [reflexivity|]. apply (str_last_append (String c a)). }
  rewrite Hlast. cbn [strip_ends]. rewrite is_char_same. cbn [andb orb].
  f_equal. apply drop_last_append.
Qed.

Lemma join_empty_iff (parts : list string) :
  Orjson.join "," (map quote_argument parts) = EmptyString -> parts = [].
Proof.
  destruct parts as [|p [|p' rest]]; [reflexivity | discriminate | discriminate].
Qed.

(** Writing a call out and parsing it gives back the method name and the
    arguments, as long as the name has no parenthesis and no argument has
    a comma in it. *)
Theorem parse_written_call (name : string) (arguments : list string) :
  str_contains "(" name = false ->
  Forall (fun argument => str_contains "," argument = false) arguments ->
  _parse_call_method_name (call_expression name arguments) = (name, map VStr arguments).
Proof.
  intros Hname Hargs. unfold _parse_call_method_name.
  set (inner := Orjson.join "," (map quote_argument arguments)).
  assert (Hc : str_contains "(" (call_expression name arguments) = true).
  { unfold call_expression. rewrite str_contains_append. cbn [str_contains].
    rewrite is_char_same. cbn [orb]. apply orb_true_r. }
  assert (He : endswith (call_expression name arguments) ")" = true).
  { unfold endswith, call_expression. fold inner.
    change (name +:+ String "(" (inner +:+ ")"))
      with (name +:+ (String "(" inner +:+ String ")" EmptyString)).
    rewrite <- append_assoc, str_last_append. apply is_char_same. }
  rewrite Hc, He. cbn [andb].
  rewrite str_remove_tail by exact Hc.
  unfold call_expression. fold inner.
  rewrite from_first_append, before_first_append by exact Hname.
  cbn [strip_ends].
  change (inner +:+ ")") with (inner +:+ String ")" EmptyString).
  rewrite drop_last_append.
  destruct (String.eqb_spec inner EmptyString) as [E|E].
  - apply join_empty_iff in E. now rewrite E.
  - f_equal. unfold inner.
    rewrite split_join.
    + rewrite map_map. apply map_ext. intros a. apply handle_arg_quoted.
    + destruct arguments; [contradiction E; reflexivity | discriminate].
    + apply Forall_map. eapply Forall_impl; [exact Hargs|].
      intros a Ha. unfold quote_argument. cbn [str_contains].
      rewrite str_contains_append, Ha. reflexivity.
Qed.

Lemma parse_written_call_witness :
  _parse_call_method_name (call_expression "set_name" ["Neil"; "Gaiman (author)"])
  = ("set_name", [VStr "Neil"; VStr "Gaiman (author)"]).
Proof.
  apply (parse_written_call "set_name" ["Neil"; "Gaiman (author)"]);
    [reflexivity | repeat constructor].
Defined.

(** The arguments are cut at every comma, wherever it stands: between
    the parentheses of a call there is one argument more than there are
    commas. *)
Theorem parse_splits_at_every_comma (expression : string) :
  str_contains "(" expression = true ->
  endswith expression ")" = true ->
  strip_ends (from_first "(" expression) <> EmptyString ->
  length (snd (_parse_call_method_name expression))
  = S (count_char "," (strip_ends (from_first "(" expression))).
Proof.
  intros Hc He Hinner. unfold _parse_call_method_name. rewrite Hc, He. cbn [andb].
  apply String.eqb_neq in Hinner. rewrite Hinner. cbn [snd].
  rewrite length_map. apply split_length.
Qed.

(** A comma inside the quotes cuts the one argument in two. *)
Lemma parse_splits_at_every_comma_witness :
  length (snd (_parse_call_method_name "set_name('Gaiman, Neil')")) = 2%nat.
Proof.
  apply (parse_splits_at_every_comma "set_name('Gaiman, Neil')");
    [reflexivity | reflexivity | discriminate].
Defined.

(** ** The endpoint's gates *)

(** The decorators answer before the view runs: a request that fails the
    CSRF check is refused whatever its method, a request that passes it
    with another method than POST is not allowed; the body is not read
    and the store is left alone. *)
Theorem refused_requests_change_nothing `{R : Runtime} (request : HttpRequest)
    (component_name : option string) (h : heap) :
  (csrf_ok request = false ->
   message request component_name h = (Return HttpResponseForbidden, h)) /\
  (csrf_ok request = true -> method request <> "POST" ->
   message request component_name h = (Return HttpResponseNotAllowed, h)).
Proof.
  unfold message, handle_error, csrf_protect, require_POST. split.
  - intros ->. reflexivity.
  - intros -> Hm. apply String.eqb_neq in Hm. rewrite Hm. reflexivity.
Qed.

Lemma refused_requests_change_nothing_witness :
  message (R := Sample.runtime)
    {| method := "GET"; csrf_ok := true; body := str_encode "{}" |}
    (Some "test") Sample.initial
  = (Return HttpResponseNotAllowed, Sample.initial).
Proof.
  apply (refused_requests_change_nothing (R := Sample.runtime)
           {| method := "GET"; csrf_ok := true; body := str_encode "{}" |}
           (Some "test") Sample.initial); [reflexivity | discriminate].
Defined.

(** [handle_error] lets neither a [UnicornViewError] nor an
    [AssertionError] out of the endpoint: whatever the request, if
    [message] raises, it raises another kind of exception. *)
Theorem message_raises_no_view_error `{R : Runtime} (request : HttpRequest)
    (component_name : option string) (h : heap) (e : exn) :
  fst (message request component_name h) = Raise e ->
  (forall text, e <> UnicornViewError text) /\ (forall text, e <> AssertionError text).
Proof.
  unfold message, handle_error.
  destruct (csrf_protect (require_POST message_body) request component_name h)
    as [[response|e'] h']; cbn [fst]; [discriminate|].
  destruct e'; cbn [fst]; intros H; try discriminate H;
    injection H as <-; split; intros text; discriminate.
Qed.

(** A syncInput on a string property descends into the string, whose
    [upper] cannot be assigned: the [AttributeError] gets out. *)
Lemma message_raises_no_view_error_witness :
  (forall text, AttributeError <> UnicornViewError text) /\
  (forall text, AttributeError <> AssertionError text).
Proof.
  apply (message_raises_no_view_error (R := Sample.runtime)
           (Sample.post (Sample.q
              "{|id|:|abc|,|data|:{|count|:0},|checksum|:|RwoC5c6N|,|actionQueue|:[{|type|:|syncInput|,|payload|:{|name|:|author.name.upper|,|value|:|x|}}]}"))
           (Some "test") Sample.initial AttributeError).
  vm_compute. reflexivity.
Defined.

Lemma message_of_failed_request `{R : Runtime} (request : HttpRequest)
    (component_name : string) (h : heap) (e : exn) :
  method request = "POST" -> csrf_ok request = true ->
  component_name <> EmptyString ->
  ComponentRequest.__init__ request = Raise e ->
  message request (Some component_name) h
  = (match e with
     | UnicornViewError text | AssertionError text => Return (JsonResponse (ErrorRes text))
     | _ => Raise e
     end, h).
Proof.
  intros Hm Hc Hn Hinit.
  unfold message, handle_error, csrf_protect, require_POST, message_body.
  rewrite Hc, Hm. change (String.eqb "POST" "POST") with true. cbv beta iota.
  destruct component_name as [|c s]; [contradiction|].
  unfold bind at 1. unfold lift. rewrite Hinit. destruct e; reflexivity.
Qed.

(** The checksum is verified before anything is done.  A request that
    has data, an id and a checksum that is not empty, and whose checksum
    is not the token of its data, is answered with the error and leaves
    the store as it was; no component is created, no property set and no
    action applied.  When the data is nested too deep to be serialized,
    the endpoint raises the serializer's [TypeError] instead, the store
    untouched as well. *)
Theorem wrong_checksum_changes_nothing `{R : Runtime} (request : HttpRequest)
    (component_name : string) (entries : list (string * json)) (data id checksum : json)
    (h : heap) :
  method request = "POST" -> csrf_ok request = true ->
  component_name <> EmptyString ->
  orjson_loads (body request) = Some (JDict entries) ->
  assoc "data" entries = Some data -> data <> JNull ->
  assoc "id" entries = Some id -> json_truthy id = true ->
  assoc "checksum" entries = Some checksum -> json_truthy checksum = true ->
  (forall token : string,
     generated_checksum SECRET_KEY data = Some token -> checksum <> JStr token ->
     message request (Some component_name) h
     = (Return (JsonResponse (ErrorRes (Text "Checksum does not match"))), h)) /\
  (generated_checksum SECRET_KEY data = None ->
   message request (Some component_name) h = (Raise TypeError, h)).
Proof.
  intros Hm Hc Hn Hload Hdata Hnull Hid Hidt Hsum Hsumt.
  assert (Hinit : forall e,
             ComponentRequest.validate_checksum (JDict entries) data = Raise e ->
             ComponentRequest.__init__ request = Raise e).
  { intros e He. unfold ComponentRequest.__init__. rewrite Hload.
    assert (Ht : json_truthy (JDict entries) = true)
      by (destruct entries; [discriminate Hdata | reflexivity]).
    rewrite Ht. cbn [negb json_get obind]. rewrite Hdata, Hid.
    replace (json_is_none data) with false
      by (destruct data; try reflexivity; contradiction).
    rewrite Hidt. cbn [negb]. rewrite He. reflexivity. }
  assert (Hval : ComponentRequest.validate_checksum (JDict entries) data
                 = match generated_checksum SECRET_KEY data with
                   | None => Raise TypeError
                   | Some token =>
                       if json_is_str checksum token then Return tt
                       else Raise (AssertionError (Text "Checksum does not match"))
                   end).
  { unfold ComponentRequest.validate_checksum. cbn [json_get obind].
    rewrite Hsum, Hsumt. reflexivity. }
  split.
  - intros token Htoken Hne.
    apply (message_of_failed_request request component_name h
             (AssertionError (Text "Checksum does not match")) Hm Hc Hn).
    apply Hinit. rewrite Hval, Htoken.
    destruct (json_is_str checksum token) eqn:E; [|reflexivity].
    apply json_is_str_true in E. contradiction.
  - intros Hnone.
    apply (message_of_failed_request request component_name h TypeError Hm Hc Hn).
    apply Hinit. now rewrite Hval, Hnone.
Qed.

(** The data says 100 and carries the token of a state that says 0. *)
Lemma wrong_checksum_changes_nothing_witness :
  message (R := Sample.runtime)
    (Sample.post (Sample.q
       "{|id|:|abc|,|data|:{|count|:100},|checksum|:|RwoC5c6N|,|actionQueue|:[{|type|:|callMethod|,|payload|:{|name|:|increment|}}]}"))
    (Some "test") Sample.initial
  = (Return (JsonResponse (ErrorRes (Text "Checksum does not match"))), Sample.initial).
Proof.
  refine (proj1 (wrong_checksum_changes_nothing (R := Sample.runtime)
                   (Sample.post (Sample.q
                      "{|id|:|abc|,|data|:{|count|:100},|checksum|:|RwoC5c6N|,|actionQueue|:[{|type|:|callMethod|,|payload|:{|name|:|increment|}}]}"))
                   "test"
                   [("id", JStr "abc"); ("data", JDict [("count", JInt 100)]);
                    ("checksum", JStr "RwoC5c6N");
                    ("actionQueue",
                     JList [JDict [("type", JStr "callMethod");
                                   ("payload", JDict [("name", JStr "increment")])]])]
                   (JDict [("count", JInt 100)]) (JStr "abc") (JStr "RwoC5c6N")
                   Sample.initial eq_refl eq_refl _ _ eq_refl _ eq_refl eq_refl eq_refl
                   eq_refl)
                "GHQp6zpG" _ _).
  - discriminate.
  - vm_compute. reflexivity.
  - discriminate.
  - vm_compute. reflexivity.
  - discriminate.
Defined.

(** A body that parses to something else than a mapping, a list or a
    number for instance, has no [get]: the constructor raises
    [AttributeError], which [handle_error] does not catch, and the
    endpoint raises it in turn without having touched the store. *)
Theorem body_that_is_no_mapping `{R : Runtime} (request : HttpRequest)
    (component_name : string) (parsed : json) (h : heap) :
  method request = "POST" -> csrf_ok request = true ->
  component_name <> EmptyString ->
  orjson_loads (body request) = Some parsed ->
  json_truthy parsed = true ->
  (forall entries, parsed <> JDict entries) ->
  ComponentRequest.__init__ request = Raise AttributeError /\
  message request (Some component_name) h = (Raise AttributeError, h).
Proof.
  intros Hm Hc Hn Hload Ht Hno.
  assert (Hinit : ComponentRequest.__init__ request = Raise AttributeError).
  { unfold ComponentRequest.__init__. rewrite Hload, Ht. cbn [negb].
    destruct parsed; try reflexivity. exfalso. eapply Hno. reflexivity. }
  split; [exact Hinit|].
  exact (message_of_failed_request request component_name h AttributeError Hm Hc Hn Hinit).
Qed.

Lemma body_that_is_no_mapping_witness :
  message (R := Sample.runtime) (Sample.post "[1, 2]") (Some "test") Sample.initial
  = (Raise AttributeError, Sample.initial).
Proof.
  apply (body_that_is_no_mapping (R := Sample.runtime) (Sample.post "[1, 2]") "test"
           (JList [JInt 1; JInt 2]) Sample.initial);
    [reflexivity | reflexivity | discriminate | vm_compute; reflexivity
    | reflexivity | discriminate].
Defined.

Lemma init_accepted `{R : Runtime} (request : HttpRequest) (entries : list (string * json))
    (component_request : ComponentRequest.t) :
  orjson_loads (body request) = Some (JDict entries) ->
  ComponentRequest.__init__ request = Return component_request ->
  exists data,
    assoc "data" entries = Some data /\ data <> JNull /\
    ComponentRequest.data component_request = data /\
    ComponentRequest.validate_checksum (JDict entries) data = Return tt.
Proof.
  intros Hload. unfold ComponentRequest.__init__. rewrite Hload.
  destruct (json_truthy (JDict entries)); cbn [negb]; [|discriminate].
  cbn [json_get obind].
  destruct (assoc "data" entries) as [data|]; [|discriminate].
  destruct (json_is_none data) eqn:Hnone; [discriminate|].
  destruct (negb _); [discriminate|].
  destruct (ComponentRequest.validate_checksum (JDict entries) data) as [[]|e] eqn:Hv;
    cbn [obind]; [|discriminate].
  intros H. injection H as <-. exists data.
  split; [reflexivity|]. split; [intros ->; discriminate Hnone|].
  split; [reflexivity | exact Hv].
Qed.

(** The checksum signs the data and nothing else: when a request is
    accepted, a second request with the same [data] and [checksum] is
    accepted too, whatever component id (not empty) and whatever action
    queue it carries. *)
Theorem checksum_covers_data_only `{R : Runtime} (request request' : HttpRequest)
    (entries entries' : list (string * json)) (component_request : ComponentRequest.t)
    (id' : json) :
  orjson_loads (body request) = Some (JDict entries) ->
  ComponentRequest.__init__ request = Return component_request ->
  orjson_loads (body request') = Some (JDict entries') ->
  assoc "data" entries' = assoc "data" entries ->
  assoc "checksum" entries' = assoc "checksum" entries ->
  assoc "id" entries' = Some id' -> json_truthy id' = true ->
  ComponentRequest.__init__ request'
  = Return {| ComponentRequest.body := JDict entries';
              ComponentRequest.data := ComponentRequest.data component_request;
              ComponentRequest.id := id';
              ComponentRequest.action_queue :=
                match assoc "actionQueue" entries' with
                | Some queue => queue
                | None => JList []
                end |}.
Proof.
  intros Hload Hinit Hload' Hdata Hsum Hid Hidt.
  destruct (init_accepted request entries component_request Hload Hinit)
    as (data & Hd & Hnull & -> & Hv).
  unfold ComponentRequest.__init__. rewrite Hload'.
  assert (Ht : json_truthy (JDict entries') = true)
    by (destruct entries'; [discriminate Hid | reflexivity]).
  rewrite Ht. cbn [negb json_get obind]. rewrite Hdata, Hd, Hid.
  replace (json_is_none data) with false by (destruct data; try reflexivity; contradiction).
  rewrite Hidt. cbn [negb].
  assert (Hv' : ComponentRequest.validate_checksum (JDict entries') data = Return tt).
  { unfold ComponentRequest.validate_checksum in *. cbn [json_get obind] in *.
    rewrite Hsum. exact Hv. }
  rewrite Hv'. reflexivity.
Qed.

(** The data and checksum of one component's request, sent under another
    id with a queue of the sender's choice. *)
Lemma checksum_covers_data_only_witness :
  ComponentRequest.__init__ (R := Sample.runtime)
    (Sample.post (Sample.q
       "{|id|:|other|,|data|:{|count|:0},|checksum|:|RwoC5c6N|,|actionQueue|:[{|type|:|callMethod|,|payload|:{|name|:|reset|}}]}"))
  = Return {| ComponentRequest.body :=
                JDict [("id", JStr "other"); ("data", JDict [("count", JInt 0)]);
                       ("checksum", JStr "RwoC5c6N");
                       ("actionQueue",
                        JList [JDict [("type", JStr "callMethod");
                                      ("payload", JDict [("name", JStr "reset")])]])];
              ComponentRequest.data := JDict [("count", JInt 0)];
              ComponentRequest.id := JStr "other";
              ComponentRequest.action_queue :=
                JList [JDict [("type", JStr "callMethod");
                              ("payload", JDict [("name", JStr "reset")])]] |}.
Proof.
  eapply (checksum_covers_data_only (R := Sample.runtime)
            (Sample.post (Sample.q "{|id|:|abc|,|data|:{|count|:0},|checksum|:|RwoC5c6N|}"))
            _
            [("id", JStr "abc"); ("data", JDict [("count", JInt 0)]);
             ("checksum", JStr "RwoC5c6N")]
            [("id", JStr "other"); ("data", JDict [("count", JInt 0)]);
             ("checksum", JStr "RwoC5c6N");
             ("actionQueue",
              JList [JDict [("type", JStr "callMethod");
                            ("payload", JDict [("name", JStr "reset")])]])]
            {| ComponentRequest.body :=
                 JDict [("id", JStr "abc"); ("data", JDict [("count", JInt 0)]);
                        ("checksum", JStr "RwoC5c6N")];
               ComponentRequest.data := JDict [("count", JInt 0)];
               ComponentRequest.id := JStr "abc";
               ComponentRequest.action_queue := JList [] |}
            (JStr "other")).
  - vm_compute. reflexivity.
  - vm_compute. reflexivity.
  - vm_compute. reflexivity.
  - reflexivity.
  - reflexivity.
  - reflexivity.
  - reflexivity.
Defined.

(** ** Writes to the store *)

Lemma assoc_set_same {A} (k : string) (v : A) (l : list (string * A)) :
  assoc k (assoc_set k v l) = Some v.
Proof.
  induction l as [|[k' v'] l IH]; cbn [assoc_set assoc].
  - now rewrite String.eqb_refl.
  - destruct (String.eqb k k') eqn:E; cbn [assoc]; rewrite ?String.eqb_refl, ?E;
      [reflexivity | exact IH].
Qed.

Lemma assoc_set_other {A} (k k' : string) (v : A) (l : list (string * A)) :
  k' <> k -> assoc k' (assoc_set k v l) = assoc k' l.
Proof.
  intros Hne. apply String.eqb_neq in Hne.
  induction l as [|[k0 v0] l IH]; cbn [assoc_set assoc].
  - now rewrite Hne.
  - destruct (String.eqb k k0) eqn:E; cbn [assoc].
    + apply String.eqb_eq in E. subst k0. now rewrite Hne.
    + destruct (String.eqb k' k0); [reflexivity | exact IH].
Qed.

Lemma assoc_set_twice {A} (k : string) (v : A) (l : list (string * A)) :
  assoc_set k v (assoc_set k v l) = assoc_set k v l.
Proof.
  induction l as [|[k' v'] l IH]; cbn [assoc_set].
  - now rewrite String.eqb_refl.
  - destruct (String.eqb k k') eqn:E; cbn [assoc_set]; rewrite ?String.eqb_refl, ?E;
      [reflexivity | now rewrite IH].
Qed.

Lemma setattr_instance `{R : Runtime} (h : heap) (l : loc) (cls : pyclass)
    (attrs : list (string * value)) (name : string) (x : value) :
  h !! l = Some (OInstance cls attrs) ->
  setattr (VRef l) name x h = (Return tt, <[l := OInstance cls (assoc_set name x attrs)]> h).
Proof. intros H. unfold setattr. simpl. rewrite H. reflexivity. Qed.

Lemma py_setitem_dict `{R : Runtime} (h : heap) (l : loc)
    (entries : list (string * value)) (key : string) (x : value) :
  h !! l = Some (ODict entries) ->
  py_setitem (VRef l) key x h = (Return tt, <[l := ODict (assoc_set key x entries)]> h).
Proof.
  intros H. unfold py_setitem, isinstance_dict, dict_setitem. simpl. rewrite H. reflexivity.
Qed.

Lemma dict_setitem_dict `{R : Runtime} (h : heap) (l : loc)
    (entries : list (string * value)) (key : string) (x : value) :
  h !! l = Some (ODict entries) ->
  dict_setitem (VRef l) key x h = (Return tt, <[l := ODict (assoc_set key x entries)]> h).
Proof. intros H. unfold dict_setitem. simpl. rewrite H. reflexivity. Qed.

Lemma instance_and_dict_differ (h : heap) (l d : loc) (cls : pyclass)
    (attrs entries : list (string * value)) :
  h !! l = Some (OInstance cls attrs) -> h !! d = Some (ODict entries) -> l <> d.
Proof. intros Hl Hd ->. congruence. Qed.

(** ** syncInput on properties the component has *)

(** A [syncInput] for a property of the component itself (a name
    without a dot) stores the value under that name on the component and
    in the snapshot, and both give it back when read. *)
Theorem sync_input_sets_property `{R : Runtime} (h : heap) (component d : loc)
    (cls : pyclass) (attrs entries fields : list (string * value)) (payload : value)
    (name : string) (old : value) :
  h !! component = Some (OInstance cls attrs) ->
  h !! d = Some (ODict fields) ->
  deref h payload = Some (ODict entries) ->
  entry entries "name" = VStr name ->
  entry entries "value" <> VNone ->
  str_contains "." name = false ->
  assoc name attrs = Some old ->
  let v := entry entries "value" in
  let h' := <[d := ODict (assoc_set name v fields)]>
              (<[component := OInstance cls (assoc_set name v attrs)]> h) in
  _set_property_from_payload component payload (VRef d) h = (Return tt, h') /\
  py_getattr h' (VRef component) name = Some v /\
  py_get (VRef d) name (ret VNone) h' = (Return v, h').
Proof.
  intros Hc Hd Hp Hname Hvalue Hdot Hold v h'.
  pose proof (instance_and_dict_differ h component d cls attrs fields Hc Hd) as Hne.
  pose proof (lookup_lt_Some _ _ _ Hc) as Hlc. pose proof (lookup_lt_Some _ _ _ Hd) as Hld.
  assert (Hc' : h' !! component = Some (OInstance cls (assoc_set name v attrs))).
  { unfold h'. rewrite list_lookup_insert_ne by congruence.
    now apply list_lookup_insert_eq. }
  assert (Hd' : h' !! d = Some (ODict (assoc_set name v fields))).
  { unfold h'. apply list_lookup_insert_eq. now rewrite length_insert. }
  split; [|split].
  - unfold _set_property_from_payload, bind.
    rewrite !(py_get_entry h payload entries _ Hp), Hname. fold v.
    destruct v eqn:Ev; try contradiction;
      rewrite (split_without "." name Hdot); cbn [set_parts]; unfold bind, read;
      rewrite (py_getattr_instance h component cls attrs name Hc), Hold;
      rewrite (setattr_instance h component cls attrs name _ Hc);
      (rewrite (py_setitem_dict _ d fields name);
       [reflexivity | now rewrite list_lookup_insert_ne by congruence]).
  - rewrite (py_getattr_instance h' component _ _ name Hc'). apply assoc_set_same.
  - rewrite (py_get_entry h' (VRef d) _ name Hd'). unfold entry.
    now rewrite assoc_set_same.
Qed.

Lemma sync_input_sets_property_witness :
  let h := Sample.store_with
             [ODict [("name", VStr "count"); ("value", VInt 3)];
              ODict [("count", VInt 0)]] in
  py_getattr (R := Sample.runtime)
    (snd (_set_property_from_payload (R := Sample.runtime) Sample.component
            (VRef 3%nat) (VRef 4%nat) h))
    (VRef Sample.component) "count"
  = Some (VInt 3).
Proof.
  intros h.
  destruct (sync_input_sets_property (R := Sample.runtime) h Sample.component 4%nat
              UnicornView
              [("author", VRef Sample.author); ("count", VInt 0);
               ("increment", VMethod Sample.component "increment")]
              [("name", VStr "count"); ("value", VInt 3)] [("count", VInt 0)]
              (VRef 3%nat) "count" (VInt 0)
              eq_refl eq_refl eq_refl eq_refl ltac:(discriminate) eq_refl eq_refl)
    as [Hrun [Hget _]].
  rewrite Hrun. exact Hget.
Defined.

(** A [syncInput] for [a.b], where [a] is an object of the component
    with an attribute [b] and the snapshot holds a mapping under [a],
    sets [b] on that object and in that mapping. *)
Theorem sync_input_sets_nested_property `{R : Runtime} (h : heap)
    (component d f e : loc) (cls fcls : pyclass)
    (attrs fattrs entries fields nested : list (string * value)) (payload : value)
    (a b : string) (old : value) :
  h !! component = Some (OInstance cls attrs) ->
  assoc a attrs = Some (VRef f) ->
  h !! f = Some (OInstance fcls fattrs) ->
  assoc b fattrs = Some old ->
  h !! d = Some (ODict fields) ->
  assoc a fields = Some (VRef e) ->
  h !! e = Some (ODict nested) ->
  deref h payload = Some (ODict entries) ->
  entry entries "name" = VStr (a +:+ String "." b) ->
  entry entries "value" <> VNone ->
  str_contains "." a = false -> str_contains "." b = false ->
  let v := entry entries "value" in
  let h' := <[e := ODict (assoc_set b v nested)]>
              (<[f := OInstance fcls (assoc_set b v fattrs)]> h) in
  _set_property_from_payload component payload (VRef d) h = (Return tt, h') /\
  py_getattr h' (VRef f) b = Some v /\
  py_get (VRef e) b (ret VNone) h' = (Return v, h').
Proof.
  intros Hc Ha Hf Hb Hd Hda He Hp Hname Hvalue Hdota Hdotb v h'.
  pose proof (instance_and_dict_differ h f e fcls fattrs nested Hf He) as Hne.
  pose proof (lookup_lt_Some _ _ _ Hf) as Hlf. pose proof (lookup_lt_Some _ _ _ He) as Hle.
  assert (Hf' : h' !! f = Some (OInstance fcls (assoc_set b v fattrs))).
  { unfold h'. rewrite list_lookup_insert_ne by congruence.
    now apply list_lookup_insert_eq. }
  assert (He' : h' !! e = Some (ODict (assoc_set b v nested))).
  { unfold h'. apply list_lookup_insert_eq. now rewrite length_insert. }
  split; [|split].
  - unfold _set_property_from_payload, bind.
    rewrite !(py_get_entry h payload entries _ Hp), Hname. fold v.
    assert (Hsplit : split "." (a +:+ String "." b) = [a; b]).
    { rewrite split_append by exact Hdota. now rewrite split_without. }
    destruct v eqn:Ev; try contradiction;
      rewrite Hsplit; cbn [set_parts]; unfold bind, read;
      rewrite (py_getattr_instance h component cls attrs a Hc), Ha;
      rewrite (py_get_found h (VRef d) (VRef e) fields a new_dict Hd Hda);
      rewrite (py_getattr_instance h f fcls fattrs b Hf), Hb;
      rewrite (setattr_instance h f fcls fattrs b _ Hf);
      (rewrite (py_setitem_dict _ e nested b);
       [reflexivity | now rewrite list_lookup_insert_ne by congruence]).
  - rewrite (py_getattr_instance h' f _ _ b Hf'). apply assoc_set_same.
  - rewrite (py_get_entry h' (VRef e) _ b He'). unfold entry. now rewrite assoc_set_same.
Qed.

Lemma sync_input_sets_nested_property_witness :
  let h := Sample.store_with
             [ODict [("name", VStr "author.name"); ("value", VStr "Neil Gaiman")];
              ODict [("author", VRef 5%nat)];
              ODict [("name", VStr "Neil")]] in
  py_getattr (R := Sample.runtime)
    (snd (_set_property_from_payload (R := Sample.runtime) Sample.component
            (VRef 3%nat) (VRef 4%nat) h))
    (VRef Sample.author) "name"
  = Some (VStr "Neil Gaiman").
Proof.
  intros h.
  destruct (sync_input_sets_nested_property (R := Sample.runtime) h Sample.component
              4%nat Sample.author 5%nat UnicornView UnicornField
              [("author", VRef Sample.author); ("count", VInt 0);
               ("increment", VMethod Sample.component "increment")]
              [("name", VStr "Neil")]
              [("name", VStr "author.name"); ("value", VStr "Neil Gaiman")]
              [("author", VRef 5%nat)] [("name", VStr "Neil")]
              (VRef 3%nat) "author" "name" (VStr "Neil")
              eq_refl eq_refl eq_refl eq_refl eq_refl eq_refl eq_refl eq_refl eq_refl
              ltac:(discriminate) eq_refl eq_refl)
    as [Hrun [Hget _]].
  rewrite Hrun. exact Hget.
Defined.

(** ** Paths into a dict property *)

Lemma set_property_from_payload_named `{R : Runtime} (h : heap) (component : loc)
    (payload data : value) (entries : list (string * value)) (name : string) :
  deref h payload = Some (ODict entries) ->
  entry entries "name" = VStr name ->
  entry entries "value" <> VNone ->
  _set_property_from_payload component payload data h
  = set_parts (split "." name) (VRef component) data (entry entries "value") h.
Proof.
  intros Hp Hname Hvalue. unfold _set_property_from_payload, bind.
  rewrite !(py_get_entry h payload entries _ Hp), Hname.
  destruct (entry entries "value"); try contradiction; reflexivity.
Qed.

(** When a property of the component is a dict, the last segment of a
    path into it is stored without asking whether the dict has the key.
    After hydration the property and the snapshot's entry are one and the
    same dict, and the key is written into that one dict. *)
Theorem sync_input_writes_dict_key `{R : Runtime} (h : heap) (component d dl : loc)
    (cls : pyclass) (attrs entries fields items : list (string * value))
    (payload : value) (a k : string) :
  h !! component = Some (OInstance cls attrs) ->
  assoc a attrs = Some (VRef dl) ->
  h !! d = Some (ODict fields) ->
  assoc a fields = Some (VRef dl) ->
  h !! dl = Some (ODict items) ->
  native_getattr h (VRef dl) k = None ->
  deref h payload = Some (ODict entries) ->
  entry entries "name" = VStr (a +:+ String "." k) ->
  entry entries "value" <> VNone ->
  str_contains "." a = false -> str_contains "." k = false ->
  _set_property_from_payload component payload (VRef d) h
  = (Return tt, <[dl := ODict (assoc_set k (entry entries "value") items)]> h).
Proof.
  intros Hc Ha Hd Hda Hdl Hnative Hp Hname Hvalue Hdota Hdotk.
  pose proof (lookup_lt_Some _ _ _ Hdl) as Hl.
  rewrite (set_property_from_payload_named h component payload _ entries _ Hp Hname Hvalue).
  set (v := entry entries "value").
  assert (Hsplit : split "." (a +:+ String "." k) = [a; k]).
  { rewrite split_append by exact Hdota. now rewrite split_without. }
  assert (Hget : py_getattr h (VRef dl) k = None).
  { unfold py_getattr. simpl. rewrite Hdl. exact Hnative. }
  assert (Hisdict : isinstance_dict h (VRef dl) = true).
  { unfold isinstance_dict. simpl. now rewrite Hdl. }
  rewrite Hsplit. cbn [set_parts]. unfold bind, read.
  rewrite (py_getattr_instance h component cls attrs a Hc), Ha.
  rewrite (py_get_found h (VRef d) (VRef dl) fields a new_dict Hd Hda).
  rewrite Hget, Hisdict.
  rewrite (dict_setitem_dict h dl items k v Hdl).
  rewrite (py_setitem_dict _ dl (assoc_set k v items) k v)
    by now apply list_lookup_insert_eq.
  now rewrite assoc_set_twice, list_insert_insert_eq.
Qed.

Lemma sync_input_writes_dict_key_witness :
  let h := Sample.initial ++
           [OInstance UnicornView [("settings", VRef 5%nat)];
            ODict [("name", VStr "settings.theme"); ("value", VStr "dark")];
            ODict [("settings", VRef 5%nat)];
            ODict [("lang", VStr "en")]] in
  _set_property_from_payload (R := Sample.runtime) 2%nat (VRef 3%nat) (VRef 4%nat) h
  = (Return tt,
     Sample.initial ++
     [OInstance UnicornView [("settings", VRef 5%nat)];
      ODict [("name", VStr "settings.theme"); ("value", VStr "dark")];
      ODict [("settings", VRef 5%nat)];
      ODict [("lang", VStr "en"); ("theme", VStr "dark")]]).
Proof.
  intros h.
  exact (sync_input_writes_dict_key (R := Sample.runtime) h 2%nat 4%nat 5%nat UnicornView
           [("settings", VRef 5%nat)]
           [("name", VStr "settings.theme"); ("value", VStr "dark")]
           [("settings", VRef 5%nat)] [("lang", VStr "en")]
           (VRef 3%nat) "settings" "theme"
           eq_refl eq_refl eq_refl eq_refl eq_refl eq_refl eq_refl eq_refl
           ltac:(discriminate) eq_refl eq_refl).
Defined.

(** A segment that is not the last one is looked up with [d[key]]: when
    the dict lacks the key, [KeyError] is raised, nothing has been
    written, and [handle_error] does not catch it. *)
Theorem sync_input_through_missing_key `{R : Runtime} (h : heap) (component d dl : loc)
    (cls : pyclass) (attrs entries fields items : list (string * value))
    (payload x : value) (a k : string) (more : list string) :
  h !! component = Some (OInstance cls attrs) ->
  assoc a attrs = Some (VRef dl) ->
  h !! d = Some (ODict fields) ->
  assoc a fields = Some x ->
  h !! dl = Some (ODict items) ->
  native_getattr h (VRef dl) k = None ->
  assoc k items = None ->
  deref h payload = Some (ODict entries) ->
  entry entries "value" <> VNone ->
  forall name : string,
    entry entries "name" = VStr name ->
    split "." name = a :: k :: more -> more <> [] ->
    _set_property_from_payload component payload (VRef d) h = (Raise (KeyError k), h).
Proof.
  intros Hc Ha Hd Hda Hdl Hnative Hk Hp Hvalue name Hname Hsplit Hmore.
  rewrite (set_property_from_payload_named h component payload _ entries _ Hp Hname Hvalue).
  assert (Hget : py_getattr h (VRef dl) k = None).
  { unfold py_getattr. simpl. rewrite Hdl. exact Hnative. }
  assert (Hisdict : isinstance_dict h (VRef dl) = true).
  { unfold isinstance_dict. simpl. now rewrite Hdl. }
  assert (Hitem : dict_getitem (VRef dl) k h = (Raise (KeyError k), h)).
  { unfold dict_getitem. simpl. now rewrite Hdl, Hk. }
  destruct more as [|m more]; [contradiction|].
  rewrite Hsplit. cbn [set_parts]. unfold bind, read.
  rewrite (py_getattr_instance h component cls attrs a Hc), Ha.
  rewrite (py_get_found h (VRef d) x fields a new_dict Hd Hda).
  now rewrite Hget, Hisdict, Hitem.
Qed.

Lemma sync_input_through_missing_key_witness :
  let h := Sample.initial ++
           [OInstance UnicornView [("settings", VRef 5%nat)];
            ODict [("name", VStr "settings.theme.color"); ("value", VStr "red")];
            ODict [("settings", VRef 5%nat)];
            ODict [("lang", VStr "en")]] in
  _set_property_from_payload (R := Sample.runtime) 2%nat (VRef 3%nat) (VRef 4%nat) h
  = (Raise (KeyError "theme"), h).
Proof.
  intros h.
  exact (sync_input_through_missing_key (R := Sample.runtime) h 2%nat 4%nat 5%nat
           UnicornView [("settings", VRef 5%nat)]
           [("name", VStr "settings.theme.color"); ("value", VStr "red")]
           [("settings", VRef 5%nat)] [("lang", VStr "en")]
           (VRef 3%nat) (VRef 5%nat) "settings" "theme" ["color"]
           eq_refl eq_refl eq_refl eq_refl eq_refl eq_refl eq_refl eq_refl
           ltac:(discriminate) "settings.theme.color" eq_refl eq_refl ltac:(discriminate)).
Defined.

(** ** callMethod *)

Lemma split_head (sep : ascii) (s : string) :
  nth 0 (split sep s) EmptyString = before_first sep s.
Proof.
  induction s as [|c s IH]; [reflexivity|].
  cbn [split before_first]. destruct (is_char c sep); [reflexivity|].
  destruct (split sep s) as [|p ps]; cbn [nth] in *; now rewrite IH.
Qed.

(** A [callMethod] whose name contains [=] is an assignment and never a
    call, even when the [=] stands inside the parentheses of a call
    written out: the text before the first [=] names the property, the
    text up to the next [=] is its value, [None] unless it is quoted.  A
    component without such a property is left alone; one that has it gets
    the value on the component and in the snapshot. *)
Theorem assignment_is_no_call `{R : Runtime} (h : heap) (component d : loc)
    (cls : pyclass) (attrs fields afields entries : list (string * value))
    (action payload : value) (name : string) (component_id : json)
    (component_name : string) :
  h !! component = Some (OInstance cls attrs) ->
  h !! d = Some (ODict fields) ->
  deref h action = Some (ODict afields) ->
  assoc "type" afields = Some (VStr "callMethod") ->
  assoc "payload" afields = Some payload ->
  deref h payload = Some (ODict entries) ->
  assoc "name" entries = Some (VStr name) ->
  str_contains "=" name = true ->
  let property_name := before_first "=" name in
  let property_value := _handle_arg (nth 1 (split "=" name) EmptyString) in
  (assoc property_name attrs = None ->
   apply_action component_id component_name (component, VRef d) action h
   = (Return (component, VRef d), h)) /\
  (forall old, assoc property_name attrs = Some old ->
   apply_action component_id component_name (component, VRef d) action h
   = (Return (component, VRef d),
      <[d := ODict (assoc_set property_name property_value fields)]>
        (<[component := OInstance cls (assoc_set property_name property_value attrs)]> h))).
Proof.
  intros Hc Hd Ha Htype Hpayload Hp Hname Heq property_name property_value.
  pose proof (instance_and_dict_differ h component d cls attrs fields Hc Hd) as Hne.
  assert (Hstart : apply_action component_id component_name (component, VRef d) action h
          = (do has <- read (fun h => hasattr h (VRef component) property_name);
             if has : bool then
               setattr (VRef component) property_name property_value >>
               py_setitem (VRef d) property_name property_value >>
               ret (component, VRef d)
             else ret (component, VRef d)) h).
  { unfold apply_action. unfold bind at 1.
    rewrite (py_get_found h action _ afields "type" _ Ha Htype).
    unfold bind at 1.
    rewrite (py_get_found h action _ afields "payload" _ Ha Hpayload).
    cbn [is_str String.eqb Ascii.eqb Bool.eqb andb].
    unfold bind at 1.
    rewrite (py_get_found h payload _ entries "name" _ Hp Hname).
    unfold bind at 1. unfold read at 1. cbn [truthy].
    assert (Hn : String.eqb name EmptyString = false)
      by (destruct name; [discriminate Heq | reflexivity]).
    assert (Hr1 : String.eqb name "reset" = false).
    { apply String.eqb_neq. intros ->. discriminate Heq. }
    assert (Hr2 : String.eqb name "reset()" = false).
    { apply String.eqb_neq. intros ->. discriminate Heq. }
    rewrite Hn, Hr1, Hr2, Heq. cbn [negb orb]. cbv zeta.
    rewrite split_head. reflexivity. }
  rewrite Hstart. unfold bind, read, hasattr.
  rewrite (py_getattr_instance h component cls attrs property_name Hc).
  split.
  - intros ->. reflexivity.
  - intros old ->.
    rewrite (setattr_instance h component cls attrs _ _ Hc).
    rewrite (py_setitem_dict _ d fields);
      [reflexivity | now rewrite list_lookup_insert_ne by congruence].
Qed.

(** [count=5]: the 5 is not quoted, and the counter becomes [None]. *)
Lemma assignment_is_no_call_witness :
  let h := Sample.store_with
             [ODict [("name", VStr "count=5")];
              ODict [("type", VStr "callMethod"); ("payload", VRef 3%nat)];
              ODict [("count", VInt 0)]] in
  apply_action (R := Sample.runtime) (JStr "abc") "test"
    (Sample.component, VRef 5%nat) (VRef 4%nat) h
  = (Return (Sample.component, VRef 5%nat),
     Sample.initial ++
     [OInstance UnicornView
        [("author", VRef Sample.author); ("count", VNone);
         ("increment", VMethod Sample.component "increment")];
      ODict [("name", VStr "count=5")];
      ODict [("type", VStr "callMethod"); ("payload", VRef 3%nat)];
      ODict [("count", VNone)]]).
Proof.
  intros h.
  exact (proj2 (assignment_is_no_call (R := Sample.runtime) h Sample.component 5%nat
                  UnicornView
                  [("author", VRef Sample.author); ("count", VInt 0);
                   ("increment", VMethod Sample.component "increment")]
                  [("count", VInt 0)]
                  [("type", VStr "callMethod"); ("payload", VRef 3%nat)]
                  [("name", VStr "count=5")]
                  (VRef 4%nat) (VRef 3%nat) "count=5" (JStr "abc") "test"
                  eq_refl eq_refl eq_refl eq_refl eq_refl eq_refl eq_refl eq_refl)
               (VInt 0) eq_refl).
Defined.

(** A [callMethod] whose payload has no [name], or an empty or null
    one, fails the assertion before anything is done. *)
Theorem call_method_needs_a_name `{R : Runtime} (h : heap) (st : loop_state)
    (afields entries : list (string * value)) (action payload : value)
    (component_id : json) (component_name : string) :
  deref h action = Some (ODict afields) ->
  assoc "type" afields = Some (VStr "callMethod") ->
  assoc "payload" afields = Some payload ->
  deref h payload = Some (ODict entries) ->
  truthy h (match assoc "name" entries with
            | Some name => name
            | None => VStr EmptyString
            end) = false ->
  apply_action component_id component_name st action h
  = (Raise (AssertionError (Text "Missing 'name' key for callMethod")), h).
Proof.
  intros Ha Htype Hpayload Hp Hfalsy. destruct st as [component data].
  unfold apply_action. unfold bind at 1.
  rewrite (py_get_found h action _ afields "type" _ Ha Htype).
  unfold bind at 1.
  rewrite (py_get_found h action _ afields "payload" _ Ha Hpayload).
  cbn [is_str String.eqb Ascii.eqb Bool.eqb andb].
  unfold bind at 1.
  assert (Hget : py_get payload "name" (ret (VStr EmptyString)) h
          = (Return (match assoc "name" entries with
                     | Some name => name
                     | None => VStr EmptyString
                     end), h)).
  { unfold py_get. rewrite Hp. destruct (assoc "name" entries); reflexivity. }
  rewrite Hget. unfold bind at 1. unfold read at 1. rewrite Hfalsy. reflexivity.
Qed.

Lemma call_method_needs_a_name_witness :
  let h := Sample.store_with
             [ODict [("name", VNone)];
              ODict [("type", VStr "callMethod"); ("payload", VRef 3%nat)];
              ODict [("count", VInt 0)]] in
  apply_action (R := Sample.runtime) (JStr "abc") "test"
    (Sample.component, VRef 5%nat) (VRef 4%nat) h
  = (Raise (AssertionError (Text "Missing 'name' key for callMethod")), h).
Proof.
  intros h.
  exact (call_method_needs_a_name (R := Sample.runtime) h (Sample.component, VRef 5%nat)
           [("type", VStr "callMethod"); ("payload", VRef 3%nat)]
           [("name", VNone)] (VRef 4%nat) (VRef 3%nat) (JStr "abc") "test"
           eq_refl eq_refl eq_refl eq_refl eq_refl).
Defined.

(** Naming a property where a method is expected: the component has the
    name, so the view calls what it finds.  When that is plain data
    ([None], a boolean, a number, a string, a dict or a list) it cannot
    be called: [TypeError] is raised, which [handle_error] does not
    catch; nothing is changed and the snapshot is not refreshed. *)
Theorem calling_a_property_raises `{R : Runtime} (h : heap) (component : loc)
    (method_name : string) (params : list value) (data found : value) :
  py_getattr h (VRef component) method_name = Some found ->
  plain_data h found = true ->
  _call_method_name component method_name params data h = (Raise TypeError, h).
Proof.
  intros Hfound Hplain. unfold _call_method_name, bind, read. rewrite Hfound.
  destruct found as [| | | |l| |]; try reflexivity; try discriminate Hplain.
  cbn [plain_data] in Hplain. cbn [py_call].
  destruct (h !! l) as [[| |]|]; try reflexivity; discriminate Hplain.
Qed.

Lemma calling_a_property_raises_witness :
  let h := Sample.store_with [ODict [("count", VInt 0)]] in
  _call_method_name (R := Sample.runtime) Sample.component "count" [] (VRef 3%nat) h
  = (Raise TypeError, h).
Proof.
  intros h.
  apply (calling_a_property_raises (R := Sample.runtime) h Sample.component "count" []
           (VRef 3%nat) (VInt 0)); reflexivity.
Defined.

(** ** The action queue *)

(** Whatever an action raises ends the queue: the actions after it are
    not processed, and what the actions before it (and the failing one)
    wrote stays written. *)
Theorem failed_action_stops_the_queue `{R : Runtime} (component_id : json)
    (component_name : string) (before after : list value) (st : loop_state)
    (h h' : heap) (e : exn) :
  run_actions component_id component_name before st h = (Raise e, h') ->
  run_actions component_id component_name (before ++ after) st h = (Raise e, h').
Proof. intros H. now rewrite run_actions_app, H. Qed.

(** An increment, a call of a property, an increment: the counter is at
    1 when [TypeError] is raised. *)
Lemma failed_action_stops_the_queue_witness :
  let h := Sample.store_with
             [ODict [("name", VStr "increment")];
              ODict [("type", VStr "callMethod"); ("payload", VRef 3%nat)];
              ODict [("name", VStr "count")];
              ODict [("type", VStr "callMethod"); ("payload", VRef 5%nat)];
              ODict [("count", VInt 0)]] in
  run_actions (R := Sample.runtime) (JStr "abc") "test"
    ([VRef 4%nat; VRef 6%nat] ++ [VRef 4%nat]) (Sample.component, VRef 7%nat) h
  = (Raise TypeError,
     Sample.initial ++
     [OInstance UnicornView
        [("author", VRef Sample.author); ("count", VInt 1);
         ("increment", VMethod Sample.component "increment")];
      ODict [("name", VStr "increment")];
      ODict [("type", VStr "callMethod"); ("payload", VRef 3%nat)];
      ODict [("name", VStr "count")];
      ODict [("type", VStr "callMethod"); ("payload", VRef 5%nat)];
      ODict [("count", VInt 1); ("author", VRef Sample.author)];
      ODict [("author", VRef Sample.author); ("count", VInt 1)]]).
Proof.
  intros h.
  apply (failed_action_stops_the_queue (R := Sample.runtime) (JStr "abc") "test"
           [VRef 4%nat; VRef 6%nat] [VRef 4%nat] (Sample.component, VRef 7%nat) h).
  vm_compute. reflexivity.
Defined.

(** ** Calling a method *)

Lemma assoc_update_other (k : string) (updates : list (string * value)) :
  forall entries,
    ~ In k (map fst updates) ->
    assoc k (assoc_update updates entries) = assoc k entries.
Proof.
  unfold assoc_update.
  induction updates as [|[k0 v0] updates IH]; intros entries Hk; [reflexivity|].
  cbn [fold_left fst snd]. rewrite IH.
  - apply assoc_set_other. intros ->. apply Hk. now left.
  - intros Hin. apply Hk. now right.
Qed.

Lemma assoc_update_in (k : string) (v : value) (updates : list (string * value)) :
  forall entries,
    List.NoDup (map fst updates) -> In (k, v) updates ->
    assoc k (assoc_update updates entries) = Some v.
Proof.
  induction updates as [|[k0 v0] updates IH]; intros entries Hnd Hin; [destruct Hin|].
  cbn [map fst] in Hnd. inversion Hnd as [|? ? Hnotin Hnd']; subst.
  destruct Hin as [Heq | Hin].
  - injection Heq as -> ->.
    change (assoc k (assoc_update updates (assoc_set k v entries)) = Some v).
    rewrite assoc_update_other by exact Hnotin. apply assoc_set_same.
  - change (assoc k (assoc_update updates (assoc_set k0 v0 entries)) = Some v).
    now apply IH.
Qed.

Lemma for_each_setitem `{R : Runtime} (d : loc) (items : list (string * value)) :
  forall (h : heap) (entries : list (string * value)),
    h !! d = Some (ODict entries) ->
    for_each items (fun kv => py_setitem (VRef d) (fst kv) (snd kv)) h
    = (Return tt, <[d := ODict (assoc_update items entries)]> h).
Proof.
  induction items as [|[k v] items IH]; intros h entries Hd.
  - cbn [for_each]. unfold ret, assoc_update. cbn [fold_left].
    now rewrite list_insert_id.
  - cbn [for_each fst snd]. unfold bind.
    rewrite (py_setitem_dict h d entries k v Hd).
    rewrite (IH _ (assoc_set k v entries)).
    + now rewrite list_insert_insert_eq.
    + apply list_lookup_insert_eq. eapply lookup_lt_Some. exact Hd.
Qed.

(** After a method has been called and has returned, the snapshot has
    every public attribute of the component with the value it has now;
    the keys of the snapshot that are no public attribute (any more) keep
    their old values: the refresh adds and overwrites, it never removes. *)
Theorem method_call_refreshes_snapshot `{R : Runtime} (h h1 : heap) (component self d : loc)
    (method_name name : string) (params : list value) (result : value)
    (entries : list (string * value)) :
  py_getattr h (VRef component) method_name = Some (VMethod self name) ->
  call_method self name params h = (Return result, h1) ->
  h1 !! d = Some (ODict entries) ->
  let attributes := public_attributes h1 component in
  let refreshed := assoc_update attributes entries in
  _call_method_name component method_name params (VRef d) h
  = (Return tt, <[d := ODict refreshed]> (h1 ++ [ODict attributes])) /\
  (List.NoDup (map fst attributes) ->
   forall k v, In (k, v) attributes -> assoc k refreshed = Some v) /\
  (forall k, ~ In k (map fst attributes) -> assoc k refreshed = assoc k entries).
Proof.
  intros Hfound Hcall Hd attributes refreshed. split; [|split].
  - unfold _call_method_name. unfold bind at 1. unfold read at 1. rewrite Hfound.
    unfold bind at 1. cbn [py_call]. rewrite Hcall.
    unfold bind at 1. unfold _attributes, bind, read, alloc. fold attributes.
    unfold py_items. cbn [deref].
    rewrite list_lookup_middle by reflexivity.
    apply for_each_setitem. now apply lookup_app_l_Some.
  - intros Hnd k v Hin. now apply assoc_update_in.
  - intros k Hk. now apply assoc_update_other.
Qed.

(** The snapshot had a stale [title]; after [increment] it has the new
    counter and the author, and still the title. *)
Lemma method_call_refreshes_snapshot_witness :
  let h := Sample.store_with [ODict [("title", VStr "old"); ("count", VInt 0)]] in
  _call_method_name (R := Sample.runtime) Sample.component "increment" [] (VRef 3%nat) h
  = (Return tt,
     Sample.initial ++
     [OInstance UnicornView
        [("author", VRef Sample.author); ("count", VInt 1);
         ("increment", VMethod Sample.component "increment")];
      ODict [("title", VStr "old"); ("count", VInt 1); ("author", VRef Sample.author)];
      ODict [("author", VRef Sample.author); ("count", VInt 1)]]).
Proof.
  intros h.
  exact (proj1 (method_call_refreshes_snapshot (R := Sample.runtime) h
                  (Sample.initial ++
                   [OInstance UnicornView
                      [("author", VRef Sample.author); ("count", VInt 1);
                       ("increment", VMethod Sample.component "increment")];
                    ODict [("title", VStr "old"); ("count", VInt 0)]])
                  Sample.component Sample.component 3%nat "increment" "increment" []
                  VNone [("title", VStr "old"); ("count", VInt 0)]
                  eq_refl eq_refl eq_refl)).
Defined.

(** ** Setting properties from the request data *)

Lemma only_instances_change_refl (h : heap) : only_instances_change h h.
Proof.
  split; [reflexivity|]. intros l. destruct (h !! l) as [[| |cls attrs]|]; eauto.
Qed.

Lemma only_instances_change_trans (h1 h2 h3 : heap) :
  only_instances_change h1 h2 -> only_instances_change h2 h3 ->
  only_instances_change h1 h3.
Proof.
  intros [Hl12 H12] [Hl23 H23]. split; [congruence|]. intros l.
  specialize (H12 l). specialize (H23 l).
  destruct (h1 !! l) as [[| |cls attrs]|].
  - now rewrite H12 in H23.
  - now rewrite H12 in H23.
  - destruct H12 as [attrs2 H12]. now rewrite H12 in H23.
  - now rewrite H12 in H23.
Qed.

Lemma setattr_only_instances `{R : Runtime} (v : value) (name : string) (x : value)
    (h : heap) :
  only_instances_change h (snd (setattr v name x h)).
Proof.
  unfold setattr. destruct v; try apply only_instances_change_refl.
  cbn [deref]. destruct (h !! l) as [[| |cls attrs]|] eqn:E;
    try apply only_instances_change_refl.
  cbn [snd]. split; [apply length_insert|]. intros l'.
  destruct (decide (l = l')) as [<-|Hne].
  - rewrite E. eexists. apply list_lookup_insert_eq. eapply lookup_lt_Some. exact E.
  - destruct (h !! l') as [[| |cls' attrs']|] eqn:E';
      try (rewrite list_lookup_insert_ne by exact Hne; exact E').
    eexists. rewrite list_lookup_insert_ne by exact Hne. exact E'.
Qed.

Lemma bind_only_instances {A B} (m : M A) (k : A -> M B) (h : heap) :
  only_instances_change h (snd (m h)) ->
  (forall a h1, only_instances_change h1 (snd (k a h1))) ->
  only_instances_change h (snd (bind m k h)).
Proof.
  intros Hm Hk. unfold bind. destruct (m h) as [[a|e] h1]; cbn [snd] in *.
  - eapply only_instances_change_trans; [exact Hm | apply Hk].
  - exact Hm.
Qed.

Lemma for_each_only_instances {A} (xs : list A) (body : A -> M unit) :
  (forall x h, only_instances_change h (snd (body x h))) ->
  forall h, only_instances_change h (snd (for_each xs body h)).
Proof.
  intros Hbody. induction xs as [|x xs IH]; intros h.
  - apply only_instances_change_refl.
  - cbn [for_each]. apply bind_only_instances; [apply Hbody | intros _ h1; apply IH].
Qed.

(** Setting the component's properties from the request data, however
    deep and whether or not it ends in an exception, creates no object,
    removes none, and leaves every dict and every list as it was: only
    attributes of instances are assigned, and every instance stays an
    instance of its class.  The request data itself is never modified. *)
Theorem set_property_from_data_only_assigns `{R : Runtime} (depth : nat) :
  forall (component_or_field : value) (name : string) (value : value) (h : heap),
    only_instances_change h
      (snd (_set_property_from_data depth component_or_field name value h)).
Proof.
  induction depth as [|depth IH]; intros component_or_field name value h.
  - apply only_instances_change_refl.
  - cbn [_set_property_from_data].
    apply bind_only_instances; [apply only_instances_change_refl|].
    intros [field|] h1; [|apply only_instances_change_refl].
    apply bind_only_instances; [apply only_instances_change_refl|].
    intros [|] h2; [|apply setattr_only_instances].
    apply bind_only_instances.
    + unfold py_items. destruct (deref h2 value) as [[| |]|];
        apply only_instances_change_refl.
    + intros items h3. apply for_each_only_instances. intros key h4.
      apply bind_only_instances; [|intros key_value h5; apply IH].
      unfold dict_getitem. destruct (deref h4 value) as [[entries| |]|];
        try apply only_instances_change_refl.
      destruct (assoc key entries); apply only_instances_change_refl.
Qed.

Lemma isinstance_after_setattr `{R : Runtime} (h : heap) (f : loc) (fcls : pyclass)
    (attrs attrs' : list (string * value)) (x : value) (c : pyclass) :
  h !! f = Some (OInstance fcls attrs) ->
  isinstance (<[f := OInstance fcls attrs']> h) x c = isinstance h x c.
Proof.
  intros Hf. unfold isinstance. destruct x; try reflexivity. cbn [deref].
  destruct (decide (f = l)) as [<-|Hne].
  - rewrite list_lookup_insert_eq by (eapply lookup_lt_Some; exact Hf).
    now rewrite Hf.
  - now rewrite list_lookup_insert_ne by exact Hne.
Qed.

Lemma assoc_in_nodup (k : string) (v : value) (entries : list (string * value)) :
  List.NoDup (map fst entries) -> In (k, v) entries -> assoc k entries = Some v.
Proof.
  induction entries as [|[k0 v0] entries IH]; intros Hnd Hin; [destruct Hin|].
  cbn [map fst] in Hnd. inversion Hnd as [|? ? Hnotin Hnd']; subst.
  cbn [assoc]. destruct Hin as [Heq | Hin].
  - injection Heq as -> ->. now rewrite String.eqb_refl.
  - destruct (String.eqb_spec k k0) as [->|_]; [|now apply IH].
    exfalso. apply Hnotin. change k0 with (fst (k0, v)). now apply in_map.
Qed.

Lemma hydrate_field_loop `{R : Runtime} (depth : nat) (f dv : loc) (fcls : pyclass)
    (entries : list (string * value)) (rest : list (string * value)) :
  forall (acc : list (string * value)) (h : heap),
    h !! f = Some (OInstance fcls acc) ->
    h !! dv = Some (ODict entries) ->
    (forall k v, In (k, v) rest -> assoc k entries = Some v) ->
    List.NoDup (map fst rest) ->
    (forall k x, In k (map fst rest) -> assoc k acc = Some x ->
                 is_field_or_model h x = false) ->
    for_each (map fst rest)
      (fun key => do key_value <- dict_getitem (VRef dv) key;
                  _set_property_from_data (S depth) (VRef f) key key_value) h
    = (Return tt, <[f := OInstance fcls (assoc_overwrite rest acc)]> h).
Proof.
  induction rest as [|[k v] rest IH]; intros acc h Hf Hdv Hin Hnd Hflat.
  - cbn [map for_each]. unfold ret, assoc_overwrite. cbn [fold_left].
    now rewrite list_insert_id.
  - pose proof (instance_and_dict_differ h f dv fcls acc entries Hf Hdv) as Hne.
    cbn [map fst] in Hnd. inversion Hnd as [|? ? Hnotin Hnd']; subst.
    cbn [map for_each fst]. unfold bind at 1. unfold bind at 1.
    unfold dict_getitem at 1. cbn [deref]. rewrite Hdv.
    rewrite (Hin k v) by now left.
    cbn [_set_property_from_data]. unfold bind at 1. unfold read at 1.
    rewrite (py_getattr_instance h f fcls acc k Hf).
    unfold assoc_overwrite. cbn [fold_left fst snd].
    destruct (assoc k acc) as [x|] eqn:Ek.
    + unfold bind at 1. unfold read at 1.
      rewrite (Hflat k x) by (try exact Ek; now left).
      rewrite (setattr_instance h f fcls acc k v Hf).
      fold (assoc_overwrite rest (assoc_set k v acc)).
      rewrite (IH (assoc_set k v acc)).
      * now rewrite list_insert_insert_eq.
      * apply list_lookup_insert_eq. eapply lookup_lt_Some. exact Hf.
      * now rewrite list_lookup_insert_ne by congruence.
      * intros k' v' Hk'. apply Hin. now right.
      * exact Hnd'.
      * intros k' x' Hk' Hx'.
        assert (Hkk : k' <> k) by (intros ->; contradiction).
        rewrite assoc_set_other in Hx' by exact Hkk.
        unfold is_field_or_model. rewrite !(isinstance_after_setattr h f fcls acc _ _ _ Hf).
        apply (Hflat k' x'); [now right | exact Hx'].
    + fold (assoc_overwrite rest acc). unfold ret at 1.
      apply IH; try assumption.
      * intros k' v' Hk'. apply Hin. now right.
      * intros k' x' Hk' Hx'. apply (Hflat k' x'); [now right | exact Hx'].
Qed.

(** Request data for a property that is a [UnicornField] (or a model)
    does not replace the object: each key of the data that the object has
    as an attribute is assigned on it, every other key is ignored, and
    the component keeps referring to the same object.  (Stated for an
    object whose attributes named by the data are not fields themselves.) *)
Theorem nested_data_updates_field_in_place `{R : Runtime} (depth : nat) (h : heap)
    (c f dv : loc) (cls fcls : pyclass) (attrs fattrs entries : list (string * value))
    (name : string) :
  h !! c = Some (OInstance cls attrs) ->
  assoc name attrs = Some (VRef f) ->
  h !! f = Some (OInstance fcls fattrs) ->
  is_field_or_model h (VRef f) = true ->
  h !! dv = Some (ODict entries) ->
  List.NoDup (map fst entries) ->
  (forall k x, In k (map fst entries) -> assoc k fattrs = Some x ->
               is_field_or_model h x = false) ->
  let h' := <[f := OInstance fcls (assoc_overwrite entries fattrs)]> h in
  _set_property_from_data (S (S depth)) (VRef c) name (VRef dv) h = (Return tt, h') /\
  (c <> f -> h' !! c = Some (OInstance cls attrs)) /\
  h' !! dv = Some (ODict entries).
Proof.
  intros Hc Hname Hf Hfield Hdv Hnd Hflat h'.
  pose proof (instance_and_dict_differ h f dv fcls fattrs entries Hf Hdv) as Hne.
  split; [|split].
  - cbn [_set_property_from_data]. unfold bind at 1. unfold read at 1.
    rewrite (py_getattr_instance h c cls attrs name Hc), Hname.
    unfold bind at 1. unfold read at 1. rewrite Hfield.
    unfold bind at 1. unfold py_items at 1. cbn [deref]. rewrite Hdv.
    apply (hydrate_field_loop depth f dv fcls entries entries fattrs h Hf Hdv);
      [|exact Hnd | exact Hflat].
    intros k v Hin. now apply assoc_in_nodup.
  - intros Hcf. unfold h'. now rewrite list_lookup_insert_ne by congruence.
  - unfold h'. now rewrite list_lookup_insert_ne by congruence.
Qed.

(** The data has a new name for the author and an age; the author has
    no [age]. *)
Lemma nested_data_updates_field_in_place_witness :
  let h := Sample.store_with [ODict [("name", VStr "Terry"); ("age", VInt 59)]] in
  _set_property_from_data (R := Sample.runtime) 2 (VRef Sample.component) "author"
    (VRef 3%nat) h
  = (Return tt,
     [OInstance UnicornField [("name", VStr "Terry")]; ODict [];
      Sample.test_view Sample.component;
      ODict [("name", VStr "Terry"); ("age", VInt 59)]]).
Proof.
  intros h.
  refine (proj1 (nested_data_updates_field_in_place (R := Sample.runtime) O h
                   Sample.component Sample.author 3%nat UnicornView UnicornField
                   [("author", VRef Sample.author); ("count", VInt 0);
                    ("increment", VMethod Sample.component "increment")]
                   [("name", VStr "Neil")]
                   [("name", VStr "Terry"); ("age", VInt 59)] "author"
                   eq_refl eq_refl eq_refl eq_refl eq_refl _ _)).
  - repeat constructor; cbn; intuition discriminate.
  - intros k x _ Hx. cbn [assoc] in Hx.
    destruct (String.eqb k "name"); [|discriminate]. injection Hx as <-. reflexivity.
Defined.

(** Request data can only overwrite what the component already has: a
    name the object lacks is ignored, an attribute that is no field is
    replaced by the value sent and reads back as that value, and for an
    attribute that is a field a value that is no mapping raises
    [AttributeError] without anything having been assigned. *)
Theorem set_property_from_data_cases `{R : Runtime} (depth : nat) (h : heap) (l : loc)
    (cls : pyclass) (attrs : list (string * value)) (name : string) (value : value) :
  h !! l = Some (OInstance cls attrs) ->
  (assoc name attrs = None ->
   _set_property_from_data (S depth) (VRef l) name value h = (Return tt, h)) /\
  (forall old, assoc name attrs = Some old -> is_field_or_model h old = false ->
   let h' := <[l := OInstance cls (assoc_set name value attrs)]> h in
   _set_property_from_data (S depth) (VRef l) name value h = (Return tt, h') /\
   py_getattr h' (VRef l) name = Some value) /\
  (forall old, assoc name attrs = Some old -> is_field_or_model h old = true ->
   isinstance_dict h value = false ->
   _set_property_from_data (S depth) (VRef l) name value h = (Raise AttributeError, h)).
Proof.
  intros Hl. split; [|split].
  - intros Hnone. cbn [_set_property_from_data]. unfold bind, read.
    now rewrite (py_getattr_instance h l cls attrs name Hl), Hnone.
  - intros old Hold Hplain h'. split.
    + cbn [_set_property_from_data]. unfold bind, read.
      rewrite (py_getattr_instance h l cls attrs name Hl), Hold, Hplain.
      apply (setattr_instance h l cls attrs name value Hl).
    + rewrite (py_getattr_instance h' l cls (assoc_set name value attrs) name).
      * apply assoc_set_same.
      * apply list_lookup_insert_eq. eapply lookup_lt_Some. exact Hl.
  - intros old Hold Hfield Hnodict. cbn [_set_property_from_data]. unfold bind, read.
    rewrite (py_getattr_instance h l cls attrs name Hl), Hold, Hfield.
    unfold py_items. unfold isinstance_dict in Hnodict.
    destruct (deref h value) as [[| |]|]; try reflexivity. discriminate Hnodict.
Qed.

(** A string sent for the author, who is a field. *)
Lemma set_property_from_data_cases_witness :
  let h := Sample.store_with [] in
  _set_property_from_data (R := Sample.runtime) 1 (VRef Sample.component) "author"
    (VStr "Terry") h
  = (Raise AttributeError, h).
Proof.
  intros h.
  exact (proj2 (proj2 (set_property_from_data_cases (R := Sample.runtime) O h
                         Sample.component UnicornView
                         [("author", VRef Sample.author); ("count", VInt 0);
                          ("increment", VMethod Sample.component "increment")]
                         "author" (VStr "Terry") eq_refl))
               (VRef Sample.author) eq_refl eq_refl eq_refl).
Defined.

(** ** The response *)



(** The sample component answers a request without actions, and raises
    on an [increment], whose snapshot has the author in it; the counter
    has been incremented all the same. *)
Example increment_is_done_and_not_answered :
  message (R := Sample.runtime)
    (Sample.post (Sample.q "{|id|:|abc|,|data|:{|count|:0},|checksum|:|RwoC5c6N|}"))
    (Some "test") Sample.initial
  = (Return (JsonResponse (Res (JStr "abc") "<p>0</p>" (JDict [("count", JInt 0)]))),
     [OInstance UnicornField [("name", VStr "Neil")];
      ODict [("abc", VRef 4%nat)];
      ODict [("count", VInt 0)];
      OList [];
      Sample.test_view 4%nat]) /\
  fst (message (R := Sample.runtime)
         (Sample.post (Sample.q
            "{|id|:|abc|,|data|:{|count|:0},|checksum|:|RwoC5c6N|,|actionQueue|:[{|type|:|callMethod|,|payload|:{|name|:|increment|}}]}"))
         (Some "test") Sample.initial)
  = Raise TypeError.
Proof. split; vm_compute; reflexivity. Qed.
